(** * finlit4: gamification ledger, derived aggregates and content ensurers

    Shallow embedding of the client pages (src/src/pages/*.tsx,
    src/unnamed/part_001 = Goals page), the session handler of
    src/src/integrations/supabase/client.ts, the edge functions
    generate-lesson and generate-course (src/unnamed/part_004) and the parts
    of the SQL migration that act on the rows (the AFTER INSERT trigger
    chain [award_expense_xp], [add_xp_to_user], [check_achievements];
    unique, primary-key, foreign-key and NOT NULL constraints; column types;
    row level security).

    Conventions:
    - a nullable INTEGER column is [option Z]; [x || 0] in the source is [or0];
    - amounts read from DECIMAL(10,2) columns are exact [Q]s, and the pages'
      sums of them are kept exact; where the source can divide by zero the
      result is a [number], with the IEEE infinities and NaN written out;
    - where the source computes an amount and writes it back (goals, budgets,
      expenses), the arithmetic is IEEE binary64 ([Binary64]), the value
      goes through the decimal text [JSON.stringify] writes, and the column
      rounds it to 2 places or refuses it on overflow ([JsonNum]);
    - a JavaScript string of the edge functions is its list of UTF-16 code
      units;
    - a table is a list of rows; a statement the database refuses
      (constraint, column type, row level security) leaves the tables as
      they were; the source at most reports the failure.  *)

From Stdlib Require Import ZArith QArith Qround Qpower Qabs List String Ascii Bool Lia Lqa.
From Stdlib Require Import Permutation.
Import ListNotations.

Open Scope Z_scope.

(* ------------------------------------------------------------------ *)
(** ** Profiles (table public.profiles) *)

Module Ledger.

Record profile := mkProfile {
  xp : option Z;
  level : option Z;
  coins : option Z;
  streak_days : option Z;
  (** a DATE column, kept as the number of days since 1970-01-01 *)
  last_login_date : option Z
}.

(** [profile?.xp || 0] *)
Definition or0 (v : option Z) : Z :=
  match v with Some x => x | None => 0 end.

(** Column defaults of public.profiles (level 1, xp 0, coins 0,
    streak_days 0, last_login_date NULL). *)
Definition default_profile : profile :=
  mkProfile (Some 0) (Some 1) (Some 0) (Some 0) None.

(** [Math.floor(newXP / 1000) + 1] *)
Definition level_of_xp (newXP : Z) : Z := Z.div newXP 1000 + 1.

(** The invariant of the data model: the stored level is derived from the
    stored xp. *)
Definition level_consistent (p : profile) : Prop :=
  level p = Some (level_of_xp (or0 (xp p))).

(** [.update({ xp, level })]: the write of the quiz page and of the two
    lesson-completion handlers (Budget.tsx, Learn.tsx). *)
Definition award_with_level (amount : Z) (p : profile) : profile :=
  let newXP := or0 (xp p) + amount in
  {| xp := Some newXP; level := Some (level_of_xp newXP); coins := coins p;
     streak_days := streak_days p; last_login_date := last_login_date p |}.

(** [.update({ xp: currentXP + 10 })] of Expenses.tsx: only xp is written. *)
Definition write_xp (newXP : Z) (p : profile) : profile :=
  {| xp := Some newXP; level := level p; coins := coins p;
     streak_days := streak_days p; last_login_date := last_login_date p |}.

(** SQL function [add_xp_to_user(p_user_id, p_xp_amount)]:
    [xp = xp + a, coins = coins + (a / 10), level = FLOOR((xp + a) / 1000) + 1];
    the right-hand sides read the old row, integer division truncates. *)
Definition add_xp_to_user (a : Z) (p : profile) : profile :=
  match xp p with
  | Some x =>
      {| xp := Some (x + a);
         coins := option_map (fun c => c + Z.quot a 10) (coins p);
         level := Some (Z.quot (x + a) 1000 + 1);
         streak_days := streak_days p; last_login_date := last_login_date p |}
  | None =>
      (* NULL + a is NULL in SQL *)
      {| xp := None; coins := option_map (fun c => c + Z.quot a 10) (coins p);
         level := None; streak_days := streak_days p;
         last_login_date := last_login_date p |}
  end.

(** Expenses.tsx [handleSubmit], profile side: the insert fires the trigger
    [expense_xp_trigger] (add_xp_to_user(user, 10)); the page then reads xp
    back and writes [xp: currentXP + 10]. *)
Definition expense_logged (p : profile) : profile :=
  let p1 := add_xp_to_user 10 p in
  write_xp (or0 (xp p1) + 10) p1.

(** Quiz.tsx [saveQuizAttempt], profile side. *)
Definition quiz_completed (xpEarned : Z) (p : profile) : profile :=
  award_with_level xpEarned p.

(** Goals page [createGoal], profile side: [xp + 50, coins + 10]. *)
Definition goal_created (p : profile) : profile :=
  {| xp := Some (or0 (xp p) + 50); level := level p;
     coins := Some (or0 (coins p) + 10);
     streak_days := streak_days p; last_login_date := last_login_date p |}.

Definition ms_per_day : Z := 1000 * 60 * 60 * 24.

Section DailyLogin.

(** [d.setHours(0,0,0,0)] in the browser's time zone: the timestamp (ms) of
    the local midnight that starts the day of [t]. *)
Variable start_of_day : Z -> Z.

(** [today.toISOString().split('T')[0]]: the UTC calendar day of [t]. *)
Definition utc_day (t : Z) : Z := Z.div t ms_per_day.

(** [new Date('YYYY-MM-DD')]: UTC midnight of the stored day. *)
Definition date_ms (d : Z) : Z := d * ms_per_day.

(** [Math.floor((today.setHours(0,0,0,0) - lastLogin.setHours(0,0,0,0)) / 86400000)] *)
Definition diff_days (today : Z) (last : Z) : Z :=
  Z.div (start_of_day today - start_of_day (date_ms last)) ms_per_day.

Definition new_streak (today : Z) (p : profile) : Z :=
  match last_login_date p with
  | None => 1
  | Some last =>
      let d := diff_days today last in
      if d =? 1 then or0 (streak_days p) + 1
      else if 1 <? d then 1
      else or0 (streak_days p)
  end.

Definition dailyXP : Z := 20.

(** [handleDailyLoginReward(userId)] at time [today] (ms).  [None] is the
    missing profile row; the handler inserts [{ id }] (column defaults) and
    returns. *)
Definition handleDailyLoginReward (today : Z) (row : option profile)
  : option profile :=
  match row with
  | None => Some default_profile
  | Some p =>
      Some {| last_login_date := Some (utc_day today);
              streak_days := Some (new_streak today p);
              xp := Some (or0 (xp p) + dailyXP);
              level := level p; coins := coins p |}
  end.

End DailyLogin.

End Ledger.

(* ------------------------------------------------------------------ *)
(** ** JavaScript numbers where a division by zero can happen *)

Module JsNum.

Inductive number :=
| Fin (q : Q)
| PosInf
| NegInf
| NaN.

(** strict order on rationals, as a test *)
Definition Qlt_bool (x y : Q) : bool := negb (Qle_bool y x).

Definition sub (a b : number) : number :=
  match a, b with
  | Fin x, Fin y => Fin (Qred (x - y))
  | _, _ => NaN   (* not reached: both operands are finite sums below *)
  end.

(** IEEE division: [x / 0] is [+Infinity], [-Infinity] or [NaN] by the
    sign of [x]. *)
Definition div (a b : number) : number :=
  match a, b with
  | Fin x, Fin y =>
      if Qeq_bool y 0 then
        if Qlt_bool 0 x then PosInf
        else if Qlt_bool x 0 then NegInf
        else NaN
      else Fin (Qred (x / y))
  | _, _ => NaN
  end.

(** multiplication by a positive finite constant *)
Definition mul_pos (a : number) (k : Q) : number :=
  match a with
  | Fin x => Fin (Qred (x * k))
  | PosInf => PosInf
  | NegInf => NegInf
  | NaN => NaN
  end.

(** [a > b] for a finite [b] *)
Definition gt (a : number) (b : Q) : bool :=
  match a with
  | Fin x => Qlt_bool b x
  | PosInf => true
  | NegInf | NaN => false
  end.

End JsNum.

(* ------------------------------------------------------------------ *)
(** ** IEEE binary64 doubles *)

Module Binary64.
Import JsNum.

(** [2 ^ e] for an integer exponent *)
Definition pow2 (e : Z) : Q := (inject_Z 2 ^ e)%Q.

(** [floor (log2 r)] for [r > 0] *)
Definition flog2 (r : Q) : Z :=
  let k := Z.log2 (Qnum r) - Z.log2 (Zpos (Qden r)) in
  if Qle_bool (pow2 k) r then k else k - 1.

(** rounding to an integer, ties to even *)
Definition rne (r : Q) : Z :=
  let f := Qfloor r in
  match (r - inject_Z f ?= 1 # 2)%Q with
  | Lt => f
  | Gt => f + 1
  | Eq => if Z.even f then f else f + 1
  end.

(** the exponent of the last significand bit of a double of magnitude [r]:
    53 bits, down to the subnormals' [2 ^ -1074] *)
Definition quantum (r : Q) : Z := Z.max (flog2 r - 52) (-1074).

Definition round_pos (r : Q) : Q :=
  (inject_Z (rne (r / pow2 (quantum r))) * pow2 (quantum r))%Q.

(** rounding to the nearest double, ties to even, with an unbounded
    exponent range *)
Definition round (r : Q) : Q :=
  match (r ?= 0)%Q with
  | Gt => round_pos r
  | Lt => (- round_pos (- r))%Q
  | Eq => 0%Q
  end.



(** the double nearest to [r], or an infinity past the largest one *)
Definition fl (r : Q) : number :=
  let v := round r in
  if Qle_bool (pow2 1024) v then PosInf
  else if Qle_bool v (- pow2 1024) then NegInf
  else Fin v.

End Binary64.

(** * JavaScript arithmetic on doubles *)
Module JsArith.
Import JsNum Binary64.




End JsArith.

(** * Numbers on the wire: JSON.stringify and PostgreSQL's numeric(10,2) *)
Module JsonNum.
Import JsNum Binary64.

(** [10 ^ e] for an integer exponent *)
Definition pow10 (e : Z) : Q := (inject_Z 10 ^ e)%Q.

(** number of decimal digits of a positive integer *)
Fixpoint ndigits (fuel : nat) (n : Z) : Z :=
  match fuel with
  | O => 1
  | S f => if n <? 10 then 1 else 1 + ndigits f (n / 10)
  end.

Definition zdigits (n : Z) : Z := ndigits (Z.to_nat (Z.log2 n + 1)) n.

(** [floor (log10 x)] for [x > 0] *)
Definition flog10 (x : Q) : Z :=
  let k := zdigits (Qnum x) - zdigits (Zpos (Qden x)) in
  if Qle_bool (pow10 k) x then k else k - 1.

(** ECMAScript Number::toString, step 5, for a finite [x > 0]: the least
    [k] with an integer [s] of [k] digits such that [s * 10 ^ (n - k)]
    rounds to [x]; of two such [s], the one closer to [x], and on a tie the
    even one.  Returns [(s, n - k)]. *)
Fixpoint shortest_from (fuel : nat) (k : Z) (x : Q) : option (Z * Z) :=
  match fuel with
  | O => None
  | S f =>
      let q := flog10 x + 1 - k in
      let s := Qfloor (x / pow10 q) in
      let c1 := (inject_Z s * pow10 q)%Q in
      let c2 := (inject_Z (s + 1) * pow10 q)%Q in
      let v1 := Qeq_bool (round c1) x in
      let v2 := Qeq_bool (round c2) x in
      if v1 && v2 then
        match (x - c1 ?= c2 - x)%Q with
        | Lt => Some (s, q)
        | Gt => Some (s + 1, q)
        | Eq => if Z.even s then Some (s, q) else Some (s + 1, q)
        end
      else if v1 then Some (s, q)
      else if v2 then Some (s + 1, q)
      else shortest_from f (k + 1) x
  end.

Definition shortest (x : Q) : option (Z * Z) := shortest_from 17 1 x.

Definition decimal_pos (x : Q) : Q :=
  match shortest x with
  | Some (s, q) => (inject_Z s * pow10 q)%Q
  | None => x
  end.

(** the value of the decimal text [JSON.stringify] writes for a finite
    double [x] *)
Definition js_decimal (x : Q) : Q :=
  match (x ?= 0)%Q with
  | Gt => decimal_pos x
  | Lt => (- decimal_pos (- x))%Q
  | Eq => 0%Q
  end.

(** PostgreSQL's numeric rounding: half away from zero *)
Definition rha (x : Q) : Z :=
  if Qle_bool 0 x then Qfloor (x + (1 # 2)) else - Qfloor (- x + (1 # 2)).

(** rounding to scale 2 *)
Definition round2 (z : Q) : Q := rha (z * 100) # 100.

(** storing a decimal value into a DECIMAL(10,2) column: rounded to 2
    places, refused (numeric field overflow) unless the rounded value is
    below [10 ^ 8] in absolute value *)
Definition numeric_10_2 (x : Q) : option Q :=
  let v := round2 x in
  if Qlt_bool (Qabs v) (pow10 8) then Some v else None.


(** what a column receives from a JSON value: a value, SQL NULL, or an
    error that refuses the whole statement *)
Inductive cell (A : Type) := Bad | Null | Val (a : A).
Arguments Bad {A}.
Arguments Null {A}.
Arguments Val {A} a.

(** a JavaScript number sent through [JSON.stringify] into a DECIMAL(10,2)
    column: [Infinity] and [NaN] are written as [null] *)
Definition json_numeric (x : number) : cell Q :=
  match x with
  | Fin a => match numeric_10_2 (js_decimal a) with Some v => Val v | None => Bad end
  | _ => Null
  end.

End JsonNum.

(* ------------------------------------------------------------------ *)
(** ** Analytics.tsx and Budget.tsx: derived aggregates *)

Module Aggregates.
Import JsNum.

(** an entry of [monthlyChartData]: [{ month, amount }], oldest first *)
Record month_bucket := { month : string; amount : Q }.

Definition bucket_amount (m : list month_bucket) (i : nat) : Q :=
  amount (nth i m {| month := ""; amount := 0 |}).

(** [const trend = monthlyChartData.length >= 2 ? ((last - prev) / prev) * 100 : 0] *)
Definition trend (monthlyChartData : list month_bucket) : number :=
  let n := List.length monthlyChartData in
  if Nat.leb 2 n then
    let latest := bucket_amount monthlyChartData (n - 1) in
    let previous := bucket_amount monthlyChartData (n - 2) in
    mul_pos (div (sub (Fin latest) (Fin previous)) (Fin previous)) 100
  else Fin 0.

(** Budget.tsx, per category:
    [percentage = allocated > 0 ? (spent / allocated) * 100 : 0] *)
Definition percentage (allocated spent : Q) : number :=
  if Qlt_bool 0 allocated then mul_pos (div (Fin spent) (Fin allocated)) 100
  else Fin 0.

(** [isOverBudget = percentage > 100] *)
Definition isOverBudget (allocated spent : Q) : bool :=
  gt (percentage allocated spent) 100.

End Aggregates.

(* ------------------------------------------------------------------ *)
(** ** Goals page (src/unnamed/part_001): savings goals *)

Module Goals.
Import JsNum Binary64 JsArith JsonNum.







End Goals.

(* ------------------------------------------------------------------ *)
(** ** Expenses.tsx: expense insert and the "First Expense" achievement *)

Module Achievements.
Import Binary64 JsonNum.

(** Row ids (uuid) and user ids are naturals; [next_id] stands for
    [uuid_generate_v4()].  The seeded catalog ids
    750e8400-e29b-41d4-a716-4466554400NN are written 1NN. *)
Record expense_row := { e_id : nat; e_user : nat; e_amount : Q }.

(** a row of quiz_attempts as [check_achievements] reads it *)
Record attempt_row := { t_user : nat; t_score : Z; t_total : Z }.

Record store := {
  expenses : list expense_row;
  achievements : list (nat * string);    (** (id, name): catalog *)
  user_achievements : list (nat * nat);  (** (user_id, achievement_id) *)
  quiz_attempts : list attempt_row;
  next_id : nat
}.

Definition set_expenses (s : store) (e : list expense_row) : store :=
  {| expenses := e; achievements := achievements s;
     user_achievements := user_achievements s; quiz_attempts := quiz_attempts s;
     next_id := next_id s |}.

Definition set_user_achievements (s : store) (ua : list (nat * nat)) : store :=
  {| expenses := expenses s; achievements := achievements s;
     user_achievements := ua; quiz_attempts := quiz_attempts s;
     next_id := next_id s |}.

Definition pair_eqb (a b : nat * nat) : bool :=
  Nat.eqb (fst a) (fst b) && Nat.eqb (snd a) (snd b).

(** 'Expense Tracker', 'Quiz Master' and 'Perfect Score' *)
Definition expense_tracker : nat := 103%nat.
Definition quiz_master : nat := 104%nat.
Definition perfect_score : nat := 105%nat.
Definition trigger_ids : list nat := [expense_tracker; quiz_master; perfect_score].

(** [.from('expenses').select('id').eq('user_id', u)], then [.length];
    also [SELECT COUNT( * ) FROM expenses WHERE user_id = p_user_id] *)
Definition count_for_user (u : nat) (s : store) : nat :=
  List.length (filter (fun e => Nat.eqb (e_user e) u) (expenses s)).

(** One [IF cond AND NOT EXISTS(...) THEN INSERT INTO user_achievements]
    of [check_achievements]; the foreign key to achievements refuses an id
    missing from the catalog, and the error aborts the statement. *)
Definition award (cond : bool) (u aid : nat) (s : store) : option store :=
  if cond && negb (existsb (pair_eqb (u, aid)) (user_achievements s)) then
    if existsb (fun a => Nat.eqb (fst a) aid) (achievements s)
    then Some (set_user_achievements s (user_achievements s ++ [(u, aid)]))
    else None
  else Some s.

(** [check_achievements(p_user_id)] *)
Definition check_achievements (u : nat) (s : store) : option store :=
  let mine := filter (fun t => Nat.eqb (t_user t) u) (quiz_attempts s) in
  let v_expense_count := count_for_user u s in
  let v_quiz_count := List.length mine in
  let v_perfect_quiz := existsb (fun t => Z.eqb (t_score t) (t_total t)) mine in
  match award (Nat.leb 10 v_expense_count) u expense_tracker s with
  | None => None
  | Some s1 =>
      match award (Nat.leb 5 v_quiz_count) u quiz_master s1 with
      | None => None
      | Some s2 => award v_perfect_quiz u perfect_score s2
      end
  end.

(** [.from('expenses').insert({ user_id, amount: parseFloat(formData.amount), ... })]
    with the AFTER INSERT trigger [expense_xp_trigger]: [award_expense_xp]
    calls [add_xp_to_user(NEW.user_id, 10)], which ends with
    [PERFORM check_achievements(p_user_id)] (the profile update is the
    ledger's part).  The amount goes through [JSON.stringify] into
    [amount DECIMAL(10,2) NOT NULL]: [null] (from [NaN]) and an overflow
    refuse the insert, and so does an error in the trigger. *)
Definition insert_expense (u : nat) (amount : Q) (s : store) : option store :=
  match json_numeric (fl amount) with
  | Val v =>
      check_achievements u
        {| expenses := expenses s ++ [{| e_id := next_id s; e_user := u; e_amount := v |}];
           achievements := achievements s;
           user_achievements := user_achievements s;
           quiz_attempts := quiz_attempts s;
           next_id := S (next_id s) |}
  | Null | Bad => None
  end.

Section Client.

(** Whether the client's role may insert into public.achievements.  The
    migration enables row level security on that table with a SELECT policy
    only, under which the page's insert is refused. *)
Variable achievements_insert_allowed : bool.

(** [.select('id').eq('name', name)] on the catalog *)
Definition achievements_named (name : string) (s : store) : list (nat * string) :=
  filter (fun a => String.eqb (snd a) name) (achievements s).

(** [ensureAchievement(name, ...)] *)
Definition ensureAchievement (name : string) (s : store) : store :=
  match achievements_named name s with
  | [] =>
      if achievements_insert_allowed then
        {| expenses := expenses s;
           achievements := achievements s ++ [(next_id s, name)];
           user_achievements := user_achievements s;
           quiz_attempts := quiz_attempts s;
           next_id := S (next_id s) |}
      else s
  | _ :: _ => s
  end.

(** [.from('user_achievements').insert(...)]: the UNIQUE(user_id,
    achievement_id) constraint refuses a duplicate. *)
Definition insert_user_achievement (u aid : nat) (s : store) : store :=
  if existsb (pair_eqb (u, aid)) (user_achievements s) then s
  else set_user_achievements s (user_achievements s ++ [(u, aid)]).

(** [unlockAchievement(userId, name)]: [.single()] fails unless exactly one
    catalog row has the name; then the existing-row check; then the insert. *)
Definition unlockAchievement (u : nat) (name : string) (s : store) : store :=
  match achievements_named name s with
  | [(aid, _)] =>
      if existsb (pair_eqb (u, aid)) (user_achievements s) then s
      else insert_user_achievement u aid s
  | _ => s
  end.

Definition first_expense : string := "First Expense".

(** [handleSubmit]: a refused insert throws before anything else
    ([if (error) throw error]).  After the profile update, the count query
    with [{ count: 'exact', head: true }] returns [data = null], so
    [totalForUser] is [undefined] and the fallback counts the rows.  The
    boolean is whether the unlock path was entered. *)
Definition handleSubmit (u : nat) (amount : Q) (s : store) : store * bool :=
  match insert_expense u amount s with
  | None => (s, false)
  | Some s1 =>
      if Nat.eqb (count_for_user u s1) 1 then
        (unlockAchievement u first_expense (ensureAchievement first_expense s1), true)
      else (s1, false)
  end.

(** [handleDelete(id)]: RLS restricts the delete to the user's rows. *)
Definition handleDelete (u id : nat) (s : store) : store :=
  set_expenses s
    (filter (fun e => negb (Nat.eqb (e_id e) id && Nat.eqb (e_user e) u)) (expenses s)).

End Client.

Definition pair_eq_dec : forall x y : nat * nat, {x = y} + {x <> y}.
Proof. decide equality; apply Nat.eq_dec. Defined.

(** an empty store and a user id *)
Definition empty_store : store :=
  {| expenses := []; achievements := []; user_achievements := [];
     quiz_attempts := []; next_id := 1 |}.

(** the seeded catalog of the migration *)
Definition seeded_catalog : list (nat * string) :=
  [(101, "First Steps"); (102, "Budget Beginner"); (103, "Expense Tracker");
   (104, "Quiz Master"); (105, "Perfect Score"); (106, "Week Warrior");
   (107, "Level Up"); (108, "Savings Hero"); (109, "Budget Pro");
   (110, "Course Completed")]%nat%string.

Definition alice : nat := 7%nat.

(** alice with nine expenses of 10, under the seeded catalog *)
Definition nine_expenses_store : store :=
  {| expenses := map (fun i => {| e_id := i; e_user := alice; e_amount := 10 |}) (seq 1 9);
     achievements := seeded_catalog; user_achievements := [];
     quiz_attempts := []; next_id := 10 |}.

End Achievements.

(* ------------------------------------------------------------------ *)
(** ** Lessons and courses: generate-lesson, generate-course, Budget.tsx *)

Module Lessons.
Import JsNum Binary64 JsonNum.

(** a JavaScript string: its UTF-16 code units *)
Definition jstr := list Z.

(** an ASCII literal of the source *)
Definition js (s : string) : jstr :=
  map (fun a => Z.of_nat (nat_of_ascii a)) (list_ascii_of_string s).

(** the code points [String.prototype.trim] strips: WhiteSpace (TAB, VT,
    FF, ZWNBSP and the category Zs) and LineTerminator (LF, CR, LS, PS) *)
Definition is_js_ws (c : Z) : bool :=
  existsb (Z.eqb c) [9; 10; 11; 12; 13; 32; 160; 5760; 8232; 8233; 8239; 8287; 12288; 65279]
  || ((8192 <=? c) && (c <=? 8202)).

Fixpoint drop_ws (l : jstr) : jstr :=
  match l with
  | c :: r => if is_js_ws c then drop_ws r else l
  | [] => []
  end.

(** [s.trim()] *)
Definition trim (s : jstr) : jstr := rev (drop_ws (rev (drop_ws s))).

(** [!!(content && String(content).trim() !== "")], for the content read
    back from the text column (a string or null) *)
Definition has_text (c : option jstr) : bool :=
  match c with
  | Some s => match trim s with [] => false | _ => true end
  | None => false
  end.

(** A string PostgreSQL accepts into a text column: no U+0000 and no
    unpaired surrogate (a UTF-8 database holds neither). *)
Definition is_high (c : Z) : bool := (55296 <=? c) && (c <=? 56319).
Definition is_low (c : Z) : bool := (56320 <=? c) && (c <=? 57343).

Fixpoint pg_text_ok (s : jstr) : bool :=
  match s with
  | [] => true
  | c :: r =>
      if c =? 0 then false
      else if is_high c then
        match r with
        | d :: r' => is_low d && pg_text_ok r'
        | [] => false
        end
      else if is_low c then false
      else pg_text_ok r
  end.

(** decimal digits of [n >= 0] *)
Fixpoint digits_rev (fuel : nat) (n : Z) : jstr :=
  match fuel with
  | O => []
  | S f => (48 + n mod 10) :: (if n <? 10 then [] else digits_rev f (n / 10))
  end.

Definition digits (n : Z) : jstr := rev (digits_rev (Z.to_nat (zdigits n)) n).

Definition zeros (k : Z) : jstr := repeat 48 (Z.to_nat k).

(** [s * 10 ^ q] with the trailing zeros of [s] moved to [q] ([shortest]
    returns [10 ^ k] when its rounding up carries) *)
Fixpoint strip_zeros (fuel : nat) (s q : Z) : Z * Z :=
  match fuel with
  | O => (s, q)
  | S f => if (s mod 10 =? 0) && (0 <? s) then strip_zeros f (s / 10) (q + 1) else (s, q)
  end.

(** ECMAScript Number::toString for a double [x > 0], from the digits [s]
    and exponent of [shortest] *)
Definition positive_text (x : Q) : jstr :=
  match shortest x with
  | Some (s0, q0) =>
      let '(s, q) := strip_zeros 20 s0 q0 in
      let ds := digits s in
      let k := Z.of_nat (List.length ds) in
      let n := q + k in
      if (k <=? n) && (n <=? 21) then ds ++ zeros (n - k)
      else if (0 <? n) && (n <=? 21) then
        firstn (Z.to_nat n) ds ++ [46] ++ skipn (Z.to_nat n) ds
      else if (-6 <? n) && (n <=? 0) then [48; 46] ++ zeros (- n) ++ ds
      else
        let ex := (if n - 1 <? 0 then [45] else [43]) ++ digits (Z.abs (n - 1)) in
        match ds with
        | [d] => [d; 101] ++ ex
        | d :: r => [d; 46] ++ r ++ [101] ++ ex
        | [] => ex
        end
  | None => digits (Qfloor x)   (** not reached: [shortest] answers on doubles *)
  end.

(** the text [JSON.stringify] writes for a finite double *)
Definition number_text (x : Q) : jstr :=
  match (x ?= 0)%Q with
  | Gt => positive_text x
  | Lt => 45 :: positive_text (- x)
  | Eq => js "0"
  end.

(** PostgreSQL 15 [int4in] ([pg_strtoint32]): blanks, an optional sign,
    decimal digits, blanks, within the 32-bit range *)
Definition is_pg_space (c : Z) : bool := existsb (Z.eqb c) [32; 9; 10; 11; 12; 13].
Definition is_digit (c : Z) : bool := (48 <=? c) && (c <=? 57).

Fixpoint drop_while (p : Z -> bool) (s : jstr) : jstr :=
  match s with
  | c :: r => if p c then drop_while p r else s
  | [] => []
  end.

Fixpoint take_while (p : Z -> bool) (s : jstr) : jstr :=
  match s with
  | c :: r => if p c then c :: take_while p r else []
  | [] => []
  end.

Definition digits_value (ds : jstr) : Z := fold_left (fun acc c => acc * 10 + (c - 48)) ds 0.

Definition int4_text (s : jstr) : option Z :=
  let s1 := drop_while is_pg_space s in
  let '(neg, s2) :=
    match s1 with
    | c :: r => if c =? 45 then (true, r) else if c =? 43 then (false, r) else (false, s1)
    | [] => (false, s1)
    end in
  let ds := take_while is_digit s2 in
  let rest := drop_while is_pg_space (drop_while is_digit s2) in
  let v := if neg then - digits_value ds else digits_value ds in
  match ds, rest with
  | _ :: _, [] => if (-2147483648 <=? v) && (v <=? 2147483647) then Some v else None
  | _, _ => None
  end.

(** A JSON value of Gemini's answer, as [JSON.parse] gives it: [JNum] is a
    double, [JOther] an object or array with the text [JSON.stringify]
    writes for it; [JUndef] is a missing property. *)
Inductive jval :=
| JUndef
| JNull
| JBool (b : bool)
| JNum (x : Q)
| JStr (s : jstr)
| JOther (json : jstr).

(** [v ?? d] *)
Definition coalesce (v d : jval) : jval :=
  match v with JUndef | JNull => d | _ => v end.

(** a property of a row object sent by PostgREST into a text column (a
    missing property and [null] are both SQL NULL) *)
Definition text_cell (v : jval) : cell jstr :=
  match v with
  | JUndef | JNull => Null
  | JBool b => Val (js (if b then "true" else "false"))
  | JNum x => Val (number_text x)
  | JStr s => if pg_text_ok s then Val s else Bad
  | JOther t => Val t
  end.

(** ... into an INTEGER column *)
Definition int_cell (v : jval) : cell Z :=
  match v with
  | JUndef | JNull => Null
  | JNum x => match int4_text (number_text x) with Some z => Val z | None => Bad end
  | JStr s => match int4_text s with Some z => Val z | None => Bad end
  | JBool _ | JOther _ => Bad
  end.

(** a row of public.courses *)
Record course_row := {
  c_id : nat;
  c_title : jstr;                    (** NOT NULL *)
  c_description : option jstr;
  c_difficulty : option jstr;
  c_lessons_count : option Z;
  c_hours : option Z;
  c_icon : option jstr
}.

(** a row of public.lessons *)
Record lesson_row := {
  l_id : nat;
  l_course : nat;                    (** REFERENCES courses(id) *)
  l_title : jstr;                    (** NOT NULL *)
  l_content : option jstr;
  l_order : Z;
  l_xp : option Z;
  l_minutes : option Z
}.

Record db := {
  lessons : list lesson_row;
  courses : list course_row;
  db_next : nat                      (** next [uuid_generate_v4()] *)
}.

Definition set_lessons (d : db) (ls : list lesson_row) : db :=
  {| lessons := ls; courses := courses d; db_next := db_next d |}.

Definition course_exists (cid : nat) (d : db) : bool :=
  existsb (fun c => Nat.eqb (c_id c) cid) (courses d).

(** Environment of an edge function: a Gemini key, a store client
    ([SUPABASE_URL] and a key), and whether that key is the service-role
    key.  Without it the client acts under row level security, and
    public.lessons and public.courses only have SELECT policies: updates and
    deletes match no row, inserts are refused. *)
Record env := {
  api_key_set : bool;
  store_configured : bool;
  service_role : bool
}.

Inductive response :=
| Err (msg : string)
| Ok (content : jstr).

(** What Gemini answers to one call: a non-2xx status, a blank body or
    unparsable JSON ([Reply_error]), or the string
    [candidates[0].content.parts[0].text] when present. *)
Inductive lesson_reply :=
| Reply_error
| Reply_ok (text : option jstr).

(** ["⚠️ No lesson generated (empty response from Gemini)."] *)
Definition no_lesson_text : jstr :=
  [9888; 65039; 32] ++ js "No lesson generated (empty response from Gemini).".

(** [text || "⚠️ No lesson generated ..."] *)
Definition lesson_text (text : option jstr) : jstr :=
  match text with
  | Some (_ :: _ as t) => t
  | _ => no_lesson_text
  end.

(** [.from('lessons').select('content').eq('id', lid).eq('course_id', cid).single()] *)
Definition select_single (lid cid : nat) (d : db) : option lesson_row :=
  match filter (fun r => Nat.eqb (l_id r) lid && Nat.eqb (l_course r) cid) (lessons d) with
  | [r] => Some r
  | _ => None
  end.

(** [.update({ content: text }).eq('id', lid).eq('course_id', cid)] *)
Definition update_content (e : env) (lid cid : nat) (text : jstr) (d : db) : db :=
  if service_role e && pg_text_ok text then
    set_lessons d
      (map (fun r => if Nat.eqb (l_id r) lid && Nat.eqb (l_course r) cid
                     then {| l_id := l_id r; l_course := l_course r;
                             l_title := l_title r; l_content := Some text;
                             l_order := l_order r; l_xp := l_xp r;
                             l_minutes := l_minutes r |}
                     else r) (lessons d))
  else d.

(** an insert with an explicit id: primary key, foreign key and text
    checks *)
Definition insert_lesson (e : env) (r : lesson_row) (d : db) : db :=
  if service_role e
     && negb (existsb (fun x => Nat.eqb (l_id x) (l_id r)) (lessons d))
     && course_exists (l_course r) d
     && pg_text_ok (l_title r)
     && match l_content r with Some c => pg_text_ok c | None => true end
  then set_lessons d (lessons d ++ [r])
  else d.

(** generate-lesson, "Persist only if empty content in DB" *)
Definition persist (e : env) (lid cid : nat) (title text : jstr) (d : db) : db :=
  match select_single lid cid d with
  | Some r => if has_text (l_content r) then d else update_content e lid cid text d
  | None =>
      insert_lesson e {| l_id := lid; l_course := cid; l_title := title;
                         l_content := Some text; l_order := 1;
                         l_xp := Some 100; l_minutes := Some 10 |} d
  end.

(** generate-lesson [serve] with body [{ lessonId, courseId, title }]: the
    response, the store after the call, and the number of generation calls
    made to Gemini. *)
Definition generate_lesson (e : env) (reply : lesson_reply)
    (lessonId courseId : option nat) (title : jstr) (d : db)
  : response * db * nat :=
  match title with
  | [] => (Err "Missing 'title'", d, 0%nat)
  | _ =>
    if negb (api_key_set e) then (Err "GOOGLE_API_KEY/GEMINI_API_KEY not set", d, 0%nat)
    else
      match reply with
      | Reply_error => (Err "Gemini error", d, 1%nat)
      | Reply_ok text =>
          let lessonText := lesson_text text in
          let d' :=
            if store_configured e then
              match lessonId, courseId with
              | Some lid, Some cid => persist e lid cid title lessonText d
              | _, _ => d
              end
            else d in
          (Ok lessonText, d', 1%nat)
      end
  end.

(** Budget.tsx page state used by [ensureLessonContent]: the lessons as
    read from the table (content a string or null) *)
Record client := {
  courseId : option nat;
  mem_lessons : list (nat * option jstr)   (** (id, content) of [lessons] *)
}.

Definition set_mem_content (cl : client) (lid : nat) (c : jstr) : client :=
  {| courseId := courseId cl;
     mem_lessons := map (fun l => if Nat.eqb (fst l) lid then (fst l, Some c) else l)
                        (mem_lessons cl) |}.

(** Budget.tsx [ensureLessonContent(lessonId, title)] *)
Definition ensureLessonContent (e : env) (reply : lesson_reply) (cl : client)
    (d : db) (lessonId : nat) (title : jstr) : client * db * nat :=
  match courseId cl with
  | None => (cl, d, 0%nat)
  | Some cid =>
      let present :=
        match find (fun l => Nat.eqb (fst l) lessonId) (mem_lessons cl) with
        | Some l => has_text (snd l)
        | None => false
        end in
      if present then (cl, d, 0%nat)
      else
        match generate_lesson e reply (Some lessonId) (Some cid) title d with
        | (Ok c, d', n) =>
            match c with
            | [] => (cl, d', n)
            | _ => (set_mem_content cl lessonId c, d', n)
            end
        | (Err _, d', n) => (cl, d', n)
        end
  end.

(** Two calls in sequence, with the provider's replies [r1] and [r2]. *)
Definition ensure_twice (e : env) (r1 r2 : lesson_reply) (cl : client) (d : db)
    (lessonId : nat) (title : jstr) : client * db * nat :=
  match ensureLessonContent e r1 cl d lessonId title with
  | (cl1, d1, n1) =>
      match ensureLessonContent e r2 cl1 d1 lessonId title with
      | (cl2, d2, n2) => (cl2, d2, (n1 + n2)%nat)
      end
  end.

(** a page and a store holding lesson 1 of course 10 with its text *)
Definition sample_env : env :=
  {| api_key_set := true; store_configured := true; service_role := true |}.

Definition sample_course : course_row :=
  {| c_id := 10; c_title := js "Budgeting"; c_description := None;
     c_difficulty := Some (js "beginner"); c_lessons_count := Some 1;
     c_hours := Some 3; c_icon := None |}.

Definition sample_row : lesson_row :=
  {| l_id := 1; l_course := 10; l_title := js "Budgeting 101";
     l_content := Some (js "# Budgeting 101"); l_order := 1;
     l_xp := Some 100; l_minutes := Some 10 |}.

Definition sample_db : db :=
  {| lessons := [sample_row]; courses := [sample_course]; db_next := 11 |}.

Definition sample_client : client :=
  {| courseId := Some 10%nat; mem_lessons := [(1%nat, Some (js "# Budgeting 101"))] |}.

(** lesson 1 of course 10 whose content is U+00A0 U+3000: blank for
    [trim] *)
Definition blank_row : lesson_row :=
  {| l_id := 1; l_course := 10; l_title := js "Budgeting 101";
     l_content := Some [160; 12288]; l_order := 1;
     l_xp := Some 100; l_minutes := Some 10 |}.

Definition blank_db : db :=
  {| lessons := [blank_row]; courses := [sample_course]; db_next := 11 |}.

End Lessons.

(* ------------------------------------------------------------------ *)
(** ** generate-course (src/unnamed/part_004) *)

Module CourseGen.
Import JsonNum Lessons.

(** [courseOut]'s properties *)
Record course_obj := {
  co_title : jval;
  co_description : jval;
  co_difficulty : jval;
  co_hours : jval;
  co_icon : jval
}.

(** [parsed.course]: [null] or missing, or a value whose properties are
    read (a non-object has none: all [JUndef]) *)
Inductive course_field :=
| CNullish
| CObj (o : course_obj).

(** an element of [parsed.lessons]: [null], or a value with [title],
    [content], [xp_reward] and [estimated_minutes] *)
Inductive lesson_entry :=
| LNull
| LObj (title content xp_reward estimated_minutes : jval).

(** [parsed = JSON.parse(txt)]: [null], or a value with [course] and, when
    [parsed.lessons] is an array, its elements *)
Inductive parsed_json :=
| PNull
| PValue (course : course_field) (lessons : option (list lesson_entry)).

(** Gemini's answer: an error status ([CReply_error]), or the raw body and
    what the two [JSON.parse] calls give ([None]: one of them threw). *)
Inductive course_reply :=
| CReply_error
| CReply_ok (raw : jstr) (parsed : option parsed_json).

(** the response of generate-course *)
Inductive course_response :=
| CErr (msg : string)
| COk (course : course_obj) (lessons : list lesson_entry) (courseId : option nat).

(** U+1F4D8 *)
Definition book_icon : jstr := [55357; 56536].

(** the [catch] branch *)
Definition fallback (title raw : jstr) : parsed_json :=
  PValue (CObj {| co_title := JStr title;
                  co_description := JStr (title ++ js " course overview");
                  co_difficulty := JStr (js "beginner");
                  co_hours := JNum 3; co_icon := JStr book_icon |})
         (Some [LObj (JStr (title ++ js " Basics")) (JStr (firstn 2000 raw))
                     (JNum 100) (JNum 10)]).

(** [parsed.course ?? { title, ... }] *)
Definition course_out (title : jstr) (c : course_field) : course_obj :=
  match c with
  | CObj o => o
  | CNullish => {| co_title := JStr title;
                   co_description := JStr (title ++ js " course");
                   co_difficulty := JStr (js "beginner");
                   co_hours := JNum 3; co_icon := JStr book_icon |}
  end.

(** [Array.isArray(parsed.lessons) && parsed.lessons.length > 0 ? ... : [...]] *)
Definition lessons_out (title : jstr) (ls : option (list lesson_entry)) : list lesson_entry :=
  match ls with
  | Some (l :: r) => l :: r
  | _ => [LObj (JStr (title ++ js " 101")) (JStr (js "Introduction")) (JNum 100) (JNum 10)]
  end.

(** a cell of a nullable column: [None] refuses the statement *)
Definition nullable {A} (c : cell A) : option (option A) :=
  match c with Bad => None | Null => Some None | Val a => Some (Some a) end.

(** the course row an upsert or insert of [courseOut] writes under [id];
    [None] when the statement is refused (NOT NULL title, a text or integer
    the column does not take) *)
Definition course_row_of (id : nat) (co : course_obj) (count : nat) : option course_row :=
  match text_cell (co_title co) with
  | Val t =>
      match nullable (text_cell (co_description co)),
            nullable (text_cell (coalesce (co_difficulty co) (JStr (js "beginner")))),
            nullable (int_cell (coalesce (co_hours co) (JNum 3))),
            nullable (text_cell (coalesce (co_icon co) (JStr book_icon))) with
      | Some de, Some di, Some h, Some i =>
          if Z.of_nat count <=? 2147483647 then
            Some {| c_id := id; c_title := t; c_description := de; c_difficulty := di;
                    c_lessons_count := Some (Z.of_nat count); c_hours := h; c_icon := i |}
          else None
      | _, _, _, _ => None
      end
  | _ => None
  end.

(** [.from("courses").upsert({ id: cid, ... })] *)
Definition upsert_course (e : env) (cid : nat) (co : course_obj) (count : nat) (d : db) : db :=
  if service_role e then
    match course_row_of cid co count with
    | Some row =>
        {| lessons := lessons d;
           courses := if course_exists cid d
                      then map (fun c => if Nat.eqb (c_id c) cid then row else c) (courses d)
                      else courses d ++ [row];
           db_next := db_next d |}
    | None => d
    end
  else d.

(** [.from("courses").insert({ ... }).select("id").single()]: the new id,
    if the insert is accepted *)
Definition insert_course (e : env) (co : course_obj) (count : nat) (d : db) : option nat * db :=
  if service_role e then
    match course_row_of (db_next d) co count with
    | Some row =>
        (Some (db_next d),
         {| lessons := lessons d; courses := courses d ++ [row];
            db_next := S (db_next d) |})
    | None => (None, d)
    end
  else (None, d).

(** [.from("lessons").delete().eq("course_id", cid)] *)
Definition delete_course_lessons (e : env) (cid : nat) (d : db) : db :=
  if service_role e then
    set_lessons d (filter (fun r => negb (Nat.eqb (l_course r) cid)) (lessons d))
  else d.

(** an element of [rows] *)
Record row_obj := {
  r_title : jval;
  r_content : jval;
  r_order : Z;
  r_xp : jval;
  r_minutes : jval
}.

(** [lessonsOut.map((l, idx) => ({ ..., order_index: idx + 1, xp_reward:
    l.xp_reward ?? 100, estimated_minutes: l.estimated_minutes ?? 10 }))];
    [None]: [l.title] on a [null] element throws a TypeError *)
Fixpoint build_rows (idx : Z) (ls : list lesson_entry) : option (list row_obj) :=
  match ls with
  | [] => Some []
  | LNull :: _ => None
  | LObj t c x m :: r =>
      match build_rows (idx + 1) r with
      | Some rs =>
          Some ({| r_title := t; r_content := c; r_order := idx;
                   r_xp := coalesce x (JNum 100); r_minutes := coalesce m (JNum 10) |} :: rs)
      | None => None
      end
  end.

(** the stored rows, ids drawn by the table default from [next]; [None]
    when a row is refused *)
Fixpoint rows_of (cid next : nat) (rs : list row_obj) : option (list lesson_row) :=
  match rs with
  | [] => Some []
  | r :: rest =>
      match text_cell (r_title r), nullable (text_cell (r_content r)),
            nullable (int_cell (r_xp r)), nullable (int_cell (r_minutes r)) with
      | Val t, Some c, Some x, Some m =>
          match rows_of cid (S next) rest with
          | Some ls =>
              Some ({| l_id := next; l_course := cid; l_title := t; l_content := c;
                       l_order := r_order r; l_xp := x; l_minutes := m |} :: ls)
          | None => None
          end
      | _, _, _, _ => None
      end
  end.

(** [if (rows.length > 0) await supabase.from("lessons").insert(rows)]: one
    statement, all rows or none *)
Definition insert_rows (e : env) (cid : nat) (rs : list row_obj) (d : db) : db :=
  match rs with
  | [] => d
  | _ =>
    if service_role e && course_exists cid d then
      match rows_of cid (db_next d) rs with
      | Some ls =>
          {| lessons := lessons d ++ ls; courses := courses d;
             db_next := db_next d + List.length ls |}
      | None => d
      end
    else d
  end.

(** [titleHint ?? "Financial Literacy"] *)
Definition course_title (titleHint : option jstr) : jstr :=
  match titleHint with Some t => t | None => js "Financial Literacy" end.

(** generate-course [serve] with body [{ courseId, titleHint }]. *)
Definition generate_course (e : env) (reply : course_reply)
    (courseId : option nat) (titleHint : option jstr) (d : db) : course_response * db :=
  let title := course_title titleHint in
  match title with
  | [] => (CErr "Missing 'title'", d)
  | _ =>
    if negb (api_key_set e) then (CErr "GOOGLE_API_KEY/GEMINI_API_KEY not set", d)
    else
      match reply with
      | CReply_error => (CErr "Gemini error", d)
      | CReply_ok raw parsed =>
          match match parsed with Some p => p | None => fallback title raw end with
          | PNull => (CErr "Cannot read properties of null (reading 'course')", d)
          | PValue c ls =>
              let co := course_out title c in
              let lo := lessons_out title ls in
              if store_configured e then
                let '(finalCourseId, d1) :=
                  match courseId with
                  | Some cid => (Some cid, upsert_course e cid co (List.length lo) d)
                  | None => insert_course e co (List.length lo) d
                  end in
                match finalCourseId with
                | Some cid =>
                    let d2 := delete_course_lessons e cid d1 in
                    match build_rows 1 lo with
                    | Some rs => (COk co lo (Some cid), insert_rows e cid rs d2)
                    | None => (CErr "Cannot read properties of null (reading 'title')", d2)
                    end
                | None => (COk co lo None, d1)
                end
              else (COk co lo courseId, d)
          end
      end
  end.

Definition course_lessons (cid : nat) (d : db) : list lesson_row :=
  filter (fun r => Nat.eqb (l_course r) cid) (lessons d).

Definition other_lessons (cid : nat) (d : db) : list lesson_row :=
  filter (fun r => negb (Nat.eqb (l_course r) cid)) (lessons d).

(** an environment with a Gemini key and the service-role key *)
Definition key_and_service_role : env :=
  {| api_key_set := true; store_configured := true; service_role := true |}.

(** a reply whose course object names the course itself *)
Definition money_course : course_obj :=
  {| co_title := JStr (js "Money Basics"); co_description := JUndef;
     co_difficulty := JNull; co_hours := JNum 2; co_icon := JUndef |}.

Definition money_lessons : list lesson_entry :=
  [LObj (JStr (js "Saving")) JUndef (JNum 50) JUndef;
   LObj (JStr (js "Spending")) JUndef JNull (JStr (js " 12 "))].

Definition money_reply : course_reply :=
  CReply_ok (js "{}") (Some (PValue (CObj money_course) (Some money_lessons))).

End CourseGen.

(* ------------------------------------------------------------------ *)
(** ** Quiz.tsx *)

Module Quiz.
Import Ledger.

Record question := { q_id : nat; correct_answer : string }.

(** the component's state hooks *)
Record quiz_state := {
  currentQuestion : nat;
  selectedAnswer : option string;
  showExplanation : bool;
  score : nat;
  lives : Z;
  quizComplete : bool
}.

Definition initial_state : quiz_state :=
  {| currentQuestion := 0; selectedAnswer := None; showExplanation := false;
     score := 0; lives := 3; quizComplete := false |}.

(** a row of public.quiz_attempts: (score, total_questions, xp_earned) *)
Record quiz_attempt := { qa_score : nat; qa_total : nat; qa_xp : Z }.

Record quiz_db := { quiz_attempts : list quiz_attempt; user_profile : option profile }.

Definition no_question : question := {| q_id := 0; correct_answer := "" |}.

(** [handleAnswer(answer)] *)
Definition handleAnswer (questions : list question) (answer : string) (st : quiz_state)
  : quiz_state :=
  if showExplanation st then st
  else
    let isCorrect :=
      String.eqb answer (correct_answer (nth (currentQuestion st) questions no_question)) in
    {| currentQuestion := currentQuestion st;
       selectedAnswer := Some answer;
       showExplanation := true;
       score := if isCorrect then S (score st) else score st;
       lives := if isCorrect then lives st else lives st - 1;
       quizComplete := quizComplete st |}.

(** [saveQuizAttempt()] *)
Definition saveQuizAttempt (questions : list question) (st : quiz_state) (d : quiz_db)
  : quiz_db :=
  let xpEarned := Z.of_nat (score st) * 100 in
  let attempts := quiz_attempts d ++
      [ {| qa_score := score st; qa_total := List.length questions; qa_xp := xpEarned |} ] in
  {| quiz_attempts := attempts;
     user_profile := option_map (quiz_completed xpEarned) (user_profile d) |}.

(** [handleNext()] *)
Definition handleNext (questions : list question) (st : quiz_state) (d : quiz_db)
  : quiz_state * quiz_db :=
  if Nat.ltb (currentQuestion st) (List.length questions - 1) then
    ({| currentQuestion := S (currentQuestion st); selectedAnswer := None;
        showExplanation := false; score := score st; lives := lives st;
        quizComplete := quizComplete st |}, d)
  else
    ({| currentQuestion := currentQuestion st; selectedAnswer := selectedAnswer st;
        showExplanation := showExplanation st; score := score st; lives := lives st;
        quizComplete := true |},
     saveQuizAttempt questions st d).

Inductive event := Answer (a : string) | NextClicked.

(** One UI event.  Once [quizComplete] the results screen is rendered and
    neither control exists; the Next button is rendered only while
    [showExplanation]; the option buttons are [disabled={showExplanation}]
    and [handleAnswer] returns early in that case as well. *)
Definition step (questions : list question) (ev : event) (sd : quiz_state * quiz_db)
  : quiz_state * quiz_db :=
  let '(st, d) := sd in
  if quizComplete st then (st, d)
  else
    match ev with
    | Answer a => (handleAnswer questions a st, d)
    | NextClicked => if showExplanation st then handleNext questions st d else (st, d)
    end.

Definition run (questions : list question) (evs : list event) (sd : quiz_state * quiz_db)
  : quiz_state * quiz_db :=
  fold_left (fun acc ev => step questions ev acc) evs sd.

(** the events of answering every question in turn and clicking Next *)
Definition play (answers : list string) : list event :=
  flat_map (fun a => [Answer a; NextClicked]) answers.


End Quiz.

(* ------------------------------------------------------------------ *)
(** ** Analytics.tsx [loadAnalytics] *)

Module Analytics.
Import JsNum Aggregates.

(** a row of public.expenses, the columns the pages read; the DATE column is
    kept as a day number *)
Record expense := { x_date : Z; x_category : string; x_amount : Q }.

(** A [Map<string, number>] (or a plain object with non-numeric keys), in
    insertion order. *)
Fixpoint map_get (k : string) (m : list (string * Q)) : option Q :=
  match m with
  | [] => None
  | (k', v) :: r => if String.eqb k k' then Some v else map_get k r
  end.

(** [m.set(k, v)]: an existing key keeps its place, a new key is appended. *)
Fixpoint map_set (k : string) (v : Q) (m : list (string * Q)) : list (string * Q) :=
  match m with
  | [] => [(k, v)]
  | (k', v') :: r =>
      if String.eqb k k' then (k', v) :: r else (k', v') :: map_set k v r
  end.

(** [m.set(k, (m.get(k) || 0) + a)] *)
Definition accumulate (k : string) (a : Q) (m : list (string * Q)) : list (string * Q) :=
  map_set k ((match map_get k m with Some v => v | None => 0 end) + a)%Q m.

(** [expenses.forEach(exp => m.set(key(exp), (m.get(key(exp)) || 0) + Number(exp.amount)))]
    on an empty map *)
Definition group_by (key : expense -> string) (es : list expense) : list (string * Q) :=
  fold_left (fun m e => accumulate (key e) (x_amount e) m) es [].

(** an entry of [categoryChartData] ([color] is presentation only) *)
Record category_entry := { c_name : string; c_value : Q }.

(** [toUpperCase] on a character; the category values are ASCII *)
Definition upper (c : ascii) : ascii :=
  let n := nat_of_ascii c in
  if (Nat.leb 97 n && Nat.leb n 122)%bool then ascii_of_nat (n - 32) else c.

(** [name.charAt(0).toUpperCase() + name.slice(1)] *)
Definition capitalize (s : string) : string :=
  match s with
  | EmptyString => EmptyString
  | String c r => String (upper c) r
  end.

(** [.sort((a, b) => b.value - a.value)]: [Array.prototype.sort] is stable,
    so the result is the descending order that keeps equal values in their
    input order; written as an insertion sort. *)
Fixpoint insert_desc (x : category_entry) (l : list category_entry) : list category_entry :=
  match l with
  | [] => [x]
  | y :: r => if Qlt_bool (c_value y) (c_value x) then x :: y :: r else y :: insert_desc x r
  end.

Definition sort_desc (l : list category_entry) : list category_entry :=
  fold_left (fun acc x => insert_desc x acc) l [].

(** [a < b] for a finite [b] *)
Definition lt (a : number) (b : Q) : bool :=
  match a with
  | Fin x => Qlt_bool x b
  | NegInf => true
  | PosInf | NaN => false
  end.

(** the insights, by their message *)
Inductive insight :=
| Increased (trend : number)
| Decreased (trend : number)
| TopShare (name : string) (pct : number)
| Logged (n : nat).

(** [newInsights] before [.slice(0, 5)] *)
Definition new_insights (trend : number) (categoryChartData : list category_entry)
    (totalSpent : Q) (count : nat) : list insight :=
  (if gt trend 10 then [Increased trend]
   else if lt trend (-10) then [Decreased trend] else [])
  ++ (match categoryChartData with
      | topCategory :: _ =>
          let topPercentage :=
            mul_pos (div (Fin (c_value topCategory)) (Fin totalSpent)) 100 in
          if gt topPercentage 40 then [TopShare (c_name topCategory) topPercentage] else []
      | [] => []
      end)
  ++ (if Nat.leb 30 count then [Logged count] else []).

(** the state the page sets *)
Record analytics := {
  monthlyData : list month_bucket;
  categoryData : list category_entry;
  totalSpent : Q;
  avgDaily : Q;
  highestCategory : string;
  trend_stat : number;
  insights : list insight
}.

Section Page.

(** [new Date(exp.date).toLocaleDateString('en-US', { month: 'short', year: 'numeric' })] *)
Variable month_label : Z -> string.

Definition monthlyChartData (es : list expense) : list month_bucket :=
  rev (firstn 6 (map (fun kv => {| month := fst kv; amount := snd kv |})
                     (group_by (fun e => month_label (x_date e)) es))).

Definition categoryChartData (es : list expense) : list category_entry :=
  sort_desc (map (fun kv => {| c_name := capitalize (fst kv); c_value := snd kv |})
                 (group_by x_category es)).

(** [loadAnalytics] on the user's expenses, as returned by the query
    ordered by date descending; [None] is the early return on no expenses. *)
Definition loadAnalytics (es : list expense) : option analytics :=
  match es with
  | [] => None
  | _ :: _ =>
      let monthly := monthlyChartData es in
      let cats := categoryChartData es in
      let total := fold_left (fun s e => s + x_amount e)%Q es 0%Q in
      let daysTracked := Z.max 1 (Z.of_nat (List.length (nodup Z.eq_dec (map x_date es)))) in
      let highest :=
        match cats with
        | c :: _ => if String.eqb (c_name c) "" then "N/A"%string else c_name c
        | [] => "N/A"%string
        end in
      let t := trend monthly in
      Some {| monthlyData := monthly; categoryData := cats; totalSpent := total;
              avgDaily := (total / inject_Z daysTracked)%Q;
              highestCategory := highest; trend_stat := t;
              insights := firstn 5 (new_insights t cats total (List.length es)) |}
  end.

End Page.

End Analytics.

(* ------------------------------------------------------------------ *)
(** ** Budget.tsx: category budgets *)

Module BudgetPage.
Import JsNum JsonNum Analytics.
Local Open Scope string_scope.

(** a row of public.budgets *)
Record budget_row := {
  b_user : nat;
  b_category : string;
  b_amount : Q;
  b_period : string
}.

Definition same_key (u : nat) (category period : string) (r : budget_row) : bool :=
  Nat.eqb (b_user r) u && String.eqb (b_category r) category && String.eqb (b_period r) period.

(** the value [allocated_amount DECIMAL(10,2) NOT NULL] receives from the
    JSON of [amount]: none when the statement is refused ([null], from
    [NaN] or an infinity, or an overflow) *)
Definition allocated_value (amount : number) : option Q :=
  match json_numeric amount with
  | Val v => Some v
  | Null | Bad => None
  end.

Definition accepted (amount : number) : bool :=
  match allocated_value amount with Some _ => true | None => false end.

(** [saveBudget(category, amount)]: [.upsert({ user_id, category,
    allocated_amount: amount, period: 'monthly' })] without [onConflict]
    resolves conflicts on the primary key [id], which the row does not
    carry; the row gets a fresh id, so a second row for the same (user_id,
    category, period) violates UNIQUE(user_id, category, period) and the
    call returns the error.  The boolean is [true] when the row was
    written.  [amount] is [Number(e.target.value)] of a category input, or
    the [recommended] double of [applyRecommended]. *)
Definition saveBudget (u : nat) (category : string) (amount : number) (t : list budget_row)
  : bool * list budget_row :=
  match allocated_value amount with
  | None => (false, t)
  | Some v =>
      if existsb (same_key u category "monthly") t then (false, t)
      else (true, (t ++ [ {| b_user := u; b_category := category; b_amount := v;
                             b_period := "monthly" |} ])%list)
  end.

(** a sequence of [saveBudget] calls *)
Definition save_all (u : nat) (saves : list (string * number)) (t : list budget_row)
  : list budget_row :=
  fold_left (fun t s => snd (saveBudget u (fst s) (snd s) t)) saves t.




End BudgetPage.

(* ------------------------------------------------------------------ *)
(** ** Goals page (src/unnamed/part_001): profile side of [addToGoal] *)

Module GoalsPage.
Import Ledger Goals Binary64.




End GoalsPage.

(* ------------------------------------------------------------------ *)
(** ** Sample data and derived notions used by the statements *)

Module LedgerFacts.
Import Ledger.

Definition p990 : profile := mkProfile (Some 990) (Some 1) (Some 0) (Some 3) None.
Definition p980 : profile := mkProfile (Some 980) (Some 1) (Some 0) (Some 3) None.




End LedgerFacts.

Module LessonFacts.
Import Lessons.

Definition rows_with_id (lid : nat) (d : db) : list lesson_row :=
  filter (fun r => Nat.eqb (l_id r) lid) (lessons d).

(** the lesson is stored, and every stored row with its id has text *)
Definition filled (lid : nat) (d : db) : Prop :=
  rows_with_id lid d <> [] /\
  forallb (fun r => has_text (l_content r)) (rows_with_id lid d) = true.

End LessonFacts.

Module QuizFacts.
Import Ledger Quiz.

Definition attempt_row (questions : list question) (s : nat) : quiz_attempt :=
  {| qa_score := s; qa_total := List.length questions; qa_xp := Z.of_nat s * 100 |}.


Definition two_questions : list question :=
  [ {| q_id := 1; correct_answer := "50/30/20" |};
    {| q_id := 2; correct_answer := "Emergency fund" |} ].

Definition sample_quiz_db : quiz_db :=
  {| quiz_attempts := []; user_profile := Some (mkProfile (Some 950) (Some 1) (Some 0) (Some 0) None) |}.

(** questions answered so far *)
Definition answered (st : quiz_state) : nat :=
  (currentQuestion st + (if showExplanation st then 1 else 0))%nat.

(** what holds after any run of the page from its initial state, with
    [a0] the attempts stored before *)
Definition quiz_inv (questions : list question) (a0 : list quiz_attempt)
    (sd : quiz_state * quiz_db) : Prop :=
  let '(st, d) := sd in
  (currentQuestion st < List.length questions)%nat /\
  (score st <= answered st)%nat /\
  Z.of_nat (score st) + (3 - lives st) = Z.of_nat (answered st) /\
  (quizComplete st = true ->
     S (currentQuestion st) = List.length questions /\ showExplanation st = true) /\
  quiz_attempts d = a0 ++ (if quizComplete st then [attempt_row questions (score st)] else []).

End QuizFacts.

(* ================================================================== *)
(** * Properties *)

(** ** Profile ledger *)


(** C1 (code_bug): the XP writes of the daily-login handler, of the
    expense page and of goal creation do not recompute the level.  A
    consistent profile with xp 990 gets xp 1010 and keeps level 1 after a
    daily login; one with xp 980 gets xp 1000 (trigger +10, page +10) and
    keeps level 1 after logging an expense; the quiz write recomputes it. *)
Theorem C1_level_not_recomputed :
  forall (start_of_day : Z -> Z) (today : Z),
    Ledger.level_consistent LedgerFacts.p990 /\
    match Ledger.handleDailyLoginReward start_of_day today (Some LedgerFacts.p990) with
    | Some p' => Ledger.xp p' = Some 1010 /\ Ledger.level p' = Some 1 /\
                 ~ Ledger.level_consistent p'
    | None => False
    end /\
    Ledger.level_consistent LedgerFacts.p980 /\
    Ledger.xp (Ledger.expense_logged LedgerFacts.p980) = Some 1000 /\
    Ledger.level (Ledger.expense_logged LedgerFacts.p980) = Some 1 /\
    ~ Ledger.level_consistent (Ledger.expense_logged LedgerFacts.p980) /\
    ~ Ledger.level_consistent (Ledger.goal_created LedgerFacts.p990) /\
    Ledger.level_consistent (Ledger.quiz_completed 30 LedgerFacts.p980).
Proof.
  intros start_of_day today.
  unfold Ledger.level_consistent; simpl.
  repeat split; try reflexivity; discriminate.
Qed.




(** ** Derived aggregates *)

Lemma Qlt_bool_true (x y : Q) : JsNum.Qlt_bool x y = true <-> (x < y)%Q.
Proof.
  unfold JsNum.Qlt_bool. rewrite negb_true_iff.
  split; intro H.
  - apply Qnot_le_lt. intro H'. apply Qle_bool_iff in H'. congruence.
  - destruct (Qle_bool y x) eqn:E; [|reflexivity].
    apply Qle_bool_iff in E. exfalso. apply (Qlt_not_le x y H E).
Qed.

(** When two buckets exist and the previous one is not 0, the trend is the
    finite number [(latest - previous) / previous * 100]. *)
Lemma trend_finite (m : list Aggregates.month_bucket) :
  (2 <= List.length m)%nat ->
  ~ (Aggregates.bucket_amount m (List.length m - 2) == 0)%Q ->
  exists q, Aggregates.trend m = JsNum.Fin q /\
    (q == (Aggregates.bucket_amount m (List.length m - 1)
           - Aggregates.bucket_amount m (List.length m - 2))
          / Aggregates.bucket_amount m (List.length m - 2) * 100)%Q.
Proof.
  intros Hlen Hnz. unfold Aggregates.trend.
  apply Nat.leb_le in Hlen. rewrite Hlen.
  set (l := Aggregates.bucket_amount m (List.length m - 1)).
  set (pr := Aggregates.bucket_amount m (List.length m - 2)).
  unfold JsNum.div, JsNum.sub.
  destruct (Qeq_bool pr 0) eqn:E.
  - apply Qeq_bool_iff in E. contradiction.
  - eexists. split; [reflexivity|].
    rewrite !Qred_correct. reflexivity.
Qed.

(** C4 (code_bug): the trend has no guard for a previous bucket of 0: with
    buckets [0, 50] it is [+Infinity] (and [NaN] for [0, 0]), not 0.  The
    rest of the sentence holds: [100, 150] gives 50 and one bucket gives 0. *)
Theorem C4_trend_previous_zero :
  Aggregates.trend [ {| Aggregates.month := "Jan 2025"; Aggregates.amount := 0 |};
                     {| Aggregates.month := "Feb 2025"; Aggregates.amount := 50 |} ]
    = JsNum.PosInf /\
  Aggregates.trend [ {| Aggregates.month := "Jan 2025"; Aggregates.amount := 0 |};
                     {| Aggregates.month := "Feb 2025"; Aggregates.amount := 0 |} ]
    = JsNum.NaN /\
  Aggregates.trend [ {| Aggregates.month := "Jan 2025"; Aggregates.amount := 100 |};
                     {| Aggregates.month := "Feb 2025"; Aggregates.amount := 150 |} ]
    = JsNum.Fin 50 /\
  Aggregates.trend [ {| Aggregates.month := "Feb 2025"; Aggregates.amount := 150 |} ]
    = JsNum.Fin 0.
Proof. vm_compute. repeat split. Qed.

(** C8, as stated, fails for a negative allocation: with A = -50 and
    S = 20 the page shows 0, not S/A*100 = -40. *)
Lemma C8_negative_allocation :
  Aggregates.percentage (-50) 20 = JsNum.Fin 0 /\
  Aggregates.percentage (-50) 20 <> JsNum.Fin (Qred (20 / (-50) * 100)).
Proof. vm_compute. split; [reflexivity| discriminate]. Qed.

(** C8 (amended): utilization is 0 when the allocation is not positive
    (A <= 0, including A = 0), and S/A*100 when A > 0; the over-budget flag
    is true exactly when the utilization exceeds 100. *)
Theorem C8_utilization :
  forall (A S : Q),
    ((A <= 0)%Q -> Aggregates.percentage A S = JsNum.Fin 0 /\
                   Aggregates.isOverBudget A S = false) /\
    ((0 < A)%Q -> exists q, Aggregates.percentage A S = JsNum.Fin q /\
                   (q == S / A * 100)%Q /\
                   (Aggregates.isOverBudget A S = true <-> (100 < q)%Q)).
Proof.
  intros A S. unfold Aggregates.isOverBudget, Aggregates.percentage.
  split; intro H.
  - destruct (JsNum.Qlt_bool 0 A) eqn:E.
    + apply Qlt_bool_true in E. exfalso. apply (Qlt_not_le 0 A E H).
    + split; reflexivity.
  - assert (E : JsNum.Qlt_bool 0 A = true) by (apply Qlt_bool_true; exact H).
    rewrite E. unfold JsNum.div.
    destruct (Qeq_bool A 0) eqn:Z0.
    + apply Qeq_bool_iff in Z0. rewrite Z0 in H. discriminate.
    + eexists. split; [reflexivity|]. split.
      * rewrite !Qred_correct. reflexivity.
      * simpl. apply Qlt_bool_true.
Qed.

Lemma C8_utilization_witness :
  (0 < 200)%Q /\ Aggregates.percentage 200 250 = JsNum.Fin 125 /\
  Aggregates.isOverBudget 200 250 = true.
Proof.
  split; [reflexivity|].
  destruct (proj2 (C8_utilization 200 250) (eq_refl : (0 ?= 200)%Q = Lt))
    as [q [Hq [_ Hover]]].
  split; [vm_compute; reflexivity|].
  apply Hover. vm_compute in Hq. injection Hq as <-. vm_compute. reflexivity.
Defined.

(** ** Doubles and DECIMAL(10,2) columns *)

Module B64Facts.
Import Binary64.
Local Open Scope Q_scope.

Lemma one_lt_two : 1 < inject_Z 2. Proof. reflexivity. Qed.

Lemma pow2_pos (e : Z) : 0 < pow2 e.
Proof. apply Qpower_0_lt. reflexivity. Qed.






Lemma pow2_le_inv (a b : Z) : pow2 a <= pow2 b -> (a <= b)%Z.
Proof. intro H. apply (Qpower_le_compat_l_inv (inject_Z 2)); [exact H|reflexivity]. Qed.



(** ** [flog2] *)





(** ** [rne] *)


Lemma rne_mono (r s : Q) : r <= s -> (rne r <= rne s)%Z.
Proof.
  intro Hrs. unfold rne.
  pose proof (Qfloor_resp_le r s Hrs) as Hf.
  pose proof (Qfloor_le r) as F1. pose proof (Qlt_floor r) as F2.
  pose proof (Qfloor_le s) as G1. pose proof (Qlt_floor s) as G2.
  destruct (Z.eq_dec (Qfloor r) (Qfloor s)) as [E|Hne].
  - rewrite <- E.
    destruct (Qcompare_spec (r - inject_Z (Qfloor r)) (1 # 2)) as [H|H|H];
    destruct (Qcompare_spec (s - inject_Z (Qfloor r)) (1 # 2)) as [K|K|K];
    try (destruct (Z.even (Qfloor r))); try lia; exfalso; lra.
  - assert (Hlt : (Qfloor r < Qfloor s)%Z) by lia.
    destruct ((r - inject_Z (Qfloor r) ?= 1 # 2)%Q);
    destruct ((s - inject_Z (Qfloor s) ?= 1 # 2)%Q);
    try (destruct (Z.even (Qfloor r))); try (destruct (Z.even (Qfloor s))); lia.
Qed.

Lemma rne_Z (z : Z) : rne (inject_Z z) = z.
Proof. unfold rne. rewrite Qfloor_Z. setoid_replace (inject_Z z - inject_Z z) with 0 by ring. reflexivity. Qed.



Lemma rne_ge_Z (r : Q) (z : Z) : inject_Z z <= r -> (z <= rne r)%Z.
Proof. intro H. rewrite <- (rne_Z z). apply rne_mono. exact H. Qed.

(** ** [round_pos] *)









Lemma round_pos_nonneg (r : Q) : 0 <= r -> 0 <= round_pos r.
Proof.
  intro Hr. unfold round_pos.
  assert (H : (0 <= rne (r / pow2 (quantum r)))%Z).
  { apply rne_ge_Z. apply Qle_shift_div_l; [apply pow2_pos|]. rewrite Qmult_0_l. exact Hr. }
  apply Qmult_le_0_compat; [change 0 with (inject_Z 0); rewrite <- Zle_Qle; exact H|].
  apply Qlt_le_weak, pow2_pos.
Qed.






(** ** [round] *)


Lemma round_nonneg (r : Q) : 0 <= r -> 0 <= round r.
Proof.
  intro Hr. unfold round.
  destruct (Qcompare_spec r 0) as [H|H|H]; [apply Qle_refl|lra|].
  apply round_pos_nonneg. lra.
Qed.







End B64Facts.

Module JsonFacts.
Import JsNum Binary64 JsonNum B64Facts.
Local Open Scope Q_scope.












End JsonFacts.

(** ** Savings goals *)

Module GoalFacts.
Import JsNum Binary64 JsArith JsonNum B64Facts JsonFacts Goals.
Local Open Scope Q_scope.






















End GoalFacts.




(** ** First Expense achievement *)

Module AchievementFacts.
Import Binary64 JsonNum Achievements.

Lemma pair_eqb_true (x y : nat * nat) : pair_eqb x y = true <-> x = y.
Proof.
  destruct x as [a b], y as [c d]; unfold pair_eqb; simpl.
  rewrite andb_true_iff, !Nat.eqb_eq. split.
  - intros [-> ->]; reflexivity.
  - intro H; injection H as -> ->; split; reflexivity.
Qed.

Lemma existsb_pair_In (x : nat * nat) (l : list (nat * nat)) :
  existsb (pair_eqb x) l = true <-> In x l.
Proof.
  rewrite existsb_exists. split.
  - intros [y [Hy Hxy]]. apply pair_eqb_true in Hxy. subst; exact Hy.
  - intro H. exists x. split; [exact H|]. apply pair_eqb_true; reflexivity.
Qed.

Lemma NoDup_snoc (x : nat * nat) (l : list (nat * nat)) :
  NoDup l -> existsb (pair_eqb x) l = false -> NoDup (l ++ [x]).
Proof.
  intros Hnd Hx. apply NoDup_app; [exact Hnd | constructor; [intros []| constructor]|].
  intros a Ha [<-|[]]. apply existsb_pair_In in Ha. congruence.
Qed.

(** what a step of the store does to user_achievements: it appends rows of
    the user, and keeps the table free of duplicates *)
Definition appends (u : nat) (P : nat -> Prop) (s s' : store) : Prop :=
  (exists added, user_achievements s' = user_achievements s ++ added /\
     forall p, In p added -> fst p = u /\ P (snd p)) /\
  (NoDup (user_achievements s) -> NoDup (user_achievements s')).

Lemma appends_refl (u : nat) (P : nat -> Prop) (s : store) : appends u P s s.
Proof.
  split; [exists []; split; [rewrite app_nil_r; reflexivity | intros p []] | tauto].
Qed.

Lemma appends_trans (u : nat) (P : nat -> Prop) (s1 s2 s3 : store) :
  appends u P s1 s2 -> appends u P s2 s3 -> appends u P s1 s3.
Proof.
  intros [[a1 [E1 H1]] N1] [[a2 [E2 H2]] N2]. split; [|tauto].
  exists (a1 ++ a2). split; [rewrite E2, E1, app_assoc; reflexivity|].
  intros p Hp. apply in_app_or in Hp as [Hp|Hp]; auto.
Qed.

Lemma appends_weaken (u : nat) (P Q : nat -> Prop) (s s' : store) :
  (forall a, P a -> Q a) -> appends u P s s' -> appends u Q s s'.
Proof.
  intros HPQ [[a [E H]] N]. split; [|exact N].
  exists a. split; [exact E|]. intros p Hp. destruct (H p Hp). auto.
Qed.

Lemma award_spec (c : bool) (u aid : nat) (s s' : store) :
  award c u aid s = Some s' ->
  appends u (fun a => a = aid) s s' /\ expenses s' = expenses s /\
  achievements s' = achievements s /\ quiz_attempts s' = quiz_attempts s.
Proof.
  unfold award.
  destruct (c && negb (existsb (pair_eqb (u, aid)) (user_achievements s))) eqn:E.
  - destruct (existsb _ (achievements s)); [|discriminate].
    intro H. injection H as <-. cbn. split; [|auto].
    apply andb_true_iff in E as [_ E]. apply negb_true_iff in E.
    split.
    + exists [(u, aid)]. split; [reflexivity|]. intros p [<-|[]]. auto.
    + intro N. apply NoDup_snoc; assumption.
  - intro H. injection H as <-. split; [apply appends_refl|auto].
Qed.

Lemma check_spec (u : nat) (s s' : store) :
  check_achievements u s = Some s' ->
  appends u (fun a => In a trigger_ids) s s' /\ expenses s' = expenses s /\
  achievements s' = achievements s.
Proof.
  unfold check_achievements.
  destruct (award _ u expense_tracker s) as [s1|] eqn:E1; [|discriminate].
  destruct (award _ u quiz_master s1) as [s2|] eqn:E2; [|discriminate].
  intro E3.
  destruct (award_spec _ _ _ _ _ E1) as [A1 [X1 [C1 _]]].
  destruct (award_spec _ _ _ _ _ E2) as [A2 [X2 [C2 _]]].
  destruct (award_spec _ _ _ _ _ E3) as [A3 [X3 [C3 _]]].
  split; [|split; congruence].
  apply appends_trans with s2; [apply appends_trans with s1|];
    (eapply appends_weaken; [|eassumption]); intros a ->; cbn; tauto.
Qed.

Lemma count_app (u : nat) (s : store) (e : expense_row) :
  List.length (filter (fun e => Nat.eqb (e_user e) u) (expenses s ++ [e]))
  = (count_for_user u s + if Nat.eqb (e_user e) u then 1 else 0)%nat.
Proof.
  unfold count_for_user. rewrite filter_app, length_app. cbn.
  destruct (Nat.eqb (e_user e) u); reflexivity.
Qed.

Lemma insert_expense_spec (u : nat) (amount : Q) (s s1 : store) :
  insert_expense u amount s = Some s1 ->
  count_for_user u s1 = S (count_for_user u s) /\
  appends u (fun a => In a trigger_ids) s s1.
Proof.
  unfold insert_expense.
  destruct (json_numeric (fl amount)) as [| |v]; try discriminate.
  intro E. destruct (check_spec _ _ _ E) as [A [X _]].
  split; [|exact A].
  unfold count_for_user at 1. rewrite X. cbn [expenses].
  rewrite count_app. cbn. rewrite Nat.eqb_refl. lia.
Qed.

Lemma ensure_user_achievements (allowed : bool) (name : string) (s : store) :
  user_achievements (ensureAchievement allowed name s) = user_achievements s.
Proof.
  unfold ensureAchievement.
  destruct (achievements_named name s); [destruct allowed|]; reflexivity.
Qed.

Lemma unlock_catalog (u : nat) (name : string) (s : store) :
  achievements (unlockAchievement u name s) = achievements s.
Proof.
  unfold unlockAchievement, insert_user_achievement.
  destruct (achievements_named name s) as [|[aid n] [|]]; try reflexivity.
  destruct (existsb (pair_eqb (u, aid)) (user_achievements s)); reflexivity.
Qed.

(** The unlock appends at most the user's row for the named catalog entry,
    keeps the table free of duplicates, and afterwards the user holds the
    achievement whenever its catalog row is unique. *)
Lemma unlock_spec (u : nat) (name : string) (s : store) :
  appends u (fun a => In (a, name) (achievements s)) s (unlockAchievement u name s) /\
  (forall aid n, achievements_named name s = [(aid, n)] ->
     In (u, aid) (user_achievements (unlockAchievement u name s))).
Proof.
  unfold unlockAchievement.
  destruct (achievements_named name s) as [|[aid n] [|]] eqn:E;
    try (split; [apply appends_refl| intros ? ? H; discriminate H]).
  destruct (existsb (pair_eqb (u, aid)) (user_achievements s)) eqn:Ex.
  - split; [apply appends_refl|]. intros aid' n' H. injection H as <- <-.
    apply existsb_pair_In; exact Ex.
  - unfold insert_user_achievement. rewrite Ex. cbn.
    assert (Hin : In (aid, n) (achievements_named name s)) by (rewrite E; left; reflexivity).
    unfold achievements_named in Hin. apply filter_In in Hin as [Hin Hn].
    apply String.eqb_eq in Hn. cbn in Hn. subst n.
    split.
    + split.
      * exists [(u, aid)]. split; [reflexivity|]. intros p [<-|[]]. cbn. auto.
      * intro N. apply NoDup_snoc; assumption.
    + intros aid' n' H. injection H as <- <-.
      apply in_or_app; right; left; reflexivity.
Qed.

End AchievementFacts.

(** C6, as stated, fails: the unlock is keyed on the user's current expense
    count, so after the first expense is deleted the user's second expense
    insert enters the unlock path again (the existing-row check then stops
    it, and no duplicate row appears). *)
Lemma C6_second_insert_after_delete :
  let s1 := fst (Achievements.handleSubmit true Achievements.alice 25 Achievements.empty_store) in
  let s2 := Achievements.handleDelete Achievements.alice 1%nat s1 in
  Achievements.user_achievements s1 = [(Achievements.alice, 2%nat)] /\
  snd (Achievements.handleSubmit true Achievements.alice 30 s2) = true /\
  Achievements.user_achievements (fst (Achievements.handleSubmit true Achievements.alice 30 s2))
    = [(Achievements.alice, 2%nat)].
Proof. vm_compute. repeat split. Qed.

(** C6 (amended): an expense insert the store accepts enters the "First
    Expense" unlock path exactly when the user had no expense before it (so
    always for the first-ever insert, never while an earlier expense still
    exists); a refused insert changes nothing.  user_achievements only
    grows, by rows of the user: the rows the AFTER INSERT trigger chain
    ([award_expense_xp], [add_xp_to_user], [check_achievements]) awards
    (Expense Tracker, Quiz Master, Perfect Score), and in the unlock path a
    row for a "First Expense" catalog entry.  No duplicate row is ever
    created, and whenever the catalog holds a single "First Expense" row
    after the unlock path, the user holds it exactly once. *)
Theorem C6_first_expense_unlock :
  forall (allowed : bool) (u : nat) (amount : Q) (s : Achievements.store),
    NoDup (Achievements.user_achievements s) ->
    let r := Achievements.handleSubmit allowed u amount s in
    (snd r = true <->
       (exists s1, Achievements.insert_expense u amount s = Some s1) /\
       Achievements.count_for_user u s = 0%nat) /\
    (Achievements.insert_expense u amount s = None -> fst r = s) /\
    NoDup (Achievements.user_achievements (fst r)) /\
    (exists added,
       Achievements.user_achievements (fst r) = Achievements.user_achievements s ++ added /\
       forall p, In p added -> fst p = u /\
         (In (snd p) Achievements.trigger_ids \/
          (snd r = true /\
           In (snd p, Achievements.first_expense) (Achievements.achievements (fst r))))) /\
    (forall aid, snd r = true ->
       Achievements.achievements_named Achievements.first_expense (fst r)
         = [(aid, Achievements.first_expense)] ->
       count_occ Achievements.pair_eq_dec (Achievements.user_achievements (fst r)) (u, aid)
         = 1%nat).
Proof.
  intros allowed u amount s Hnd r. subst r.
  unfold Achievements.handleSubmit.
  destruct (Achievements.insert_expense u amount s) as [s1|] eqn:Ei.
  2:{ cbn. split; [split; [discriminate|intros [[s1 H] _]; discriminate H]|].
      split; [reflexivity|]. split; [exact Hnd|]. split.
      - exists []. split; [rewrite app_nil_r; reflexivity|intros p []].
      - intros aid H; discriminate H. }
  destruct (AchievementFacts.insert_expense_spec u amount s s1 Ei)
    as [Hc1 [[A [EA HA]] NA]].
  specialize (NA Hnd).
  rewrite Hc1.
  destruct (Achievements.count_for_user u s) as [|k] eqn:Hc; cbn [Nat.eqb fst snd].
  - set (s2 := Achievements.ensureAchievement allowed Achievements.first_expense s1).
    assert (Hnd2 : NoDup (Achievements.user_achievements s2)).
    { unfold s2; rewrite AchievementFacts.ensure_user_achievements; exact NA. }
    destruct (AchievementFacts.unlock_spec u Achievements.first_expense s2)
      as [[[B [EB HB]] NB] Hin].
    specialize (NB Hnd2).
    split; [split; [intros _; split; [exists s1; reflexivity|reflexivity]|reflexivity]|].
    split; [discriminate|]. split; [exact NB|]. split.
    + exists (A ++ B). split.
      * rewrite EB. unfold s2. rewrite AchievementFacts.ensure_user_achievements, EA, app_assoc.
        reflexivity.
      * intros p Hp. apply in_app_or in Hp as [Hp|Hp].
        -- destruct (HA p Hp). auto.
        -- destruct (HB p Hp) as [Hu Hp']. split; [exact Hu|right].
           split; [reflexivity|]. rewrite AchievementFacts.unlock_catalog. exact Hp'.
    + intros aid _ Hcat.
      assert (Hcat2 : Achievements.achievements_named Achievements.first_expense s2
                      = [(aid, Achievements.first_expense)]).
      { unfold Achievements.achievements_named in *.
        rewrite <- (AchievementFacts.unlock_catalog u Achievements.first_expense s2).
        exact Hcat. }
      apply (NoDup_count_occ' Achievements.pair_eq_dec); [exact NB|].
      apply (Hin aid Achievements.first_expense Hcat2).
  - split; [split; [discriminate|intros [_ H]; discriminate H]|].
    split; [discriminate|]. split; [exact NA|]. split.
    + exists A. split; [exact EA|]. intros p Hp. destruct (HA p Hp). auto.
    + intros aid H; discriminate H.
Qed.

(** Witness of C6: the first expense of a user whose store allows the
    catalog insert; and, with the seeded catalog, the tenth expense awards
    Expense Tracker through the trigger without entering the unlock path. *)
Lemma C6_first_expense_unlock_witness :
  NoDup (Achievements.user_achievements Achievements.empty_store) /\
  count_occ Achievements.pair_eq_dec
    (Achievements.user_achievements
       (fst (Achievements.handleSubmit true Achievements.alice 25 Achievements.empty_store)))
    (Achievements.alice, 2%nat) = 1%nat /\
  Achievements.handleSubmit false Achievements.alice 10 Achievements.nine_expenses_store
    = ({| Achievements.expenses :=
            Achievements.expenses Achievements.nine_expenses_store ++
            [{| Achievements.e_id := 10; Achievements.e_user := Achievements.alice;
                Achievements.e_amount := 1000 # 100 |}];
          Achievements.achievements := Achievements.seeded_catalog;
          Achievements.user_achievements :=
            [(Achievements.alice, Achievements.expense_tracker)];
          Achievements.quiz_attempts := [];
          Achievements.next_id := 11 |}, false).
Proof.
  assert (Hnd : NoDup (Achievements.user_achievements Achievements.empty_store))
    by constructor.
  split; [exact Hnd|]. split; [|vm_compute; reflexivity].
  destruct (C6_first_expense_unlock true Achievements.alice 25 Achievements.empty_store Hnd)
    as [_ [_ [_ [_ Hone]]]].
  apply Hone; vm_compute; reflexivity.
Defined.

(** ** Lesson content ensurer *)

Module LessonLemmas.
Import Lessons LessonFacts.

Lemma filled_row (lid : nat) (d : db) (r : lesson_row) :
  filled lid d -> In r (lessons d) -> l_id r = lid -> has_text (l_content r) = true.
Proof.
  intros [_ Hall] Hin Hid.
  rewrite forallb_forall in Hall. apply Hall.
  unfold rows_with_id. apply filter_In. split; [exact Hin|].
  apply Nat.eqb_eq; exact Hid.
Qed.

Lemma insert_taken (e : env) (r : lesson_row) (d : db) :
  existsb (fun x => Nat.eqb (l_id x) (l_id r)) (lessons d) = true ->
  insert_lesson e r d = d.
Proof.
  intro Hex. unfold insert_lesson. rewrite Hex, andb_false_r. reflexivity.
Qed.

Lemma persist_filled (e : env) (lid cid : nat) (title text : jstr) (d : db) :
  filled lid d -> persist e lid cid title text d = d.
Proof.
  intro Hf. unfold persist, select_single.
  destruct (filter (fun r => Nat.eqb (l_id r) lid && Nat.eqb (l_course r) cid) (lessons d))
    as [|r [|r' rest]] eqn:E.
  - apply insert_taken. simpl.
    destruct Hf as [Hne _].
    unfold rows_with_id in Hne.
    destruct (filter (fun r => Nat.eqb (l_id r) lid) (lessons d)) as [|x l] eqn:F;
      [congruence|].
    apply existsb_exists. exists x.
    assert (Hx : In x (filter (fun r => Nat.eqb (l_id r) lid) (lessons d)))
      by (rewrite F; left; reflexivity).
    apply filter_In in Hx. exact Hx.
  - assert (Hr : In r (filter (fun r => Nat.eqb (l_id r) lid && Nat.eqb (l_course r) cid)
                               (lessons d))) by (rewrite E; left; reflexivity).
    apply filter_In in Hr as [Hin Hk]. apply andb_true_iff in Hk as [Hid _].
    apply Nat.eqb_eq in Hid.
    rewrite (filled_row lid d r Hf Hin Hid). reflexivity.
  - apply insert_taken. simpl.
    assert (Hr : In r (filter (fun r => Nat.eqb (l_id r) lid && Nat.eqb (l_course r) cid)
                               (lessons d))) by (rewrite E; left; reflexivity).
    apply filter_In in Hr as [Hin Hk]. apply andb_true_iff in Hk as [Hid _].
    apply existsb_exists; exists r; split; assumption.
Qed.

Lemma generate_lesson_filled (e : env) (reply : lesson_reply) (lid cid : nat)
    (title : jstr) (d : db) :
  filled lid d ->
  snd (fst (generate_lesson e reply (Some lid) (Some cid) title d)) = d.
Proof.
  intro Hf. unfold generate_lesson.
  destruct title as [|c t]; [reflexivity|].
  destruct (negb (api_key_set e)); [reflexivity|].
  destruct reply as [|text]; [reflexivity|]. simpl.
  destruct (store_configured e); [|reflexivity].
  apply persist_filled; exact Hf.
Qed.

Lemma ensure_filled (e : env) (reply : lesson_reply) (cl : client) (d : db)
    (lid : nat) (title : jstr) :
  filled lid d ->
  snd (fst (ensureLessonContent e reply cl d lid title)) = d.
Proof.
  intro Hf. unfold ensureLessonContent.
  destruct (courseId cl) as [cid|]; [|reflexivity].
  destruct (match find (fun l => Nat.eqb (fst l) lid) (mem_lessons cl) with
            | Some l => has_text (snd l) | None => false end); [reflexivity|].
  pose proof (generate_lesson_filled e reply lid cid title d Hf) as H.
  destruct (generate_lesson e reply (Some lid) (Some cid) title d)
    as [[[c|c] d'] n]; simpl in H; subst d'; [reflexivity|].
  destruct c; reflexivity.
Qed.

End LessonLemmas.

(** C2: on a lesson whose stored content is non-blank (after the JavaScript
    trim, which strips Unicode white space), two ensure calls in sequence
    leave the store as it was, whatever the page holds and whatever the
    provider answers (the persist step writes only over null or blank
    content, and the insert fallback hits the primary key); when the page's
    copy of the lesson has non-blank content, both calls return before any
    generation call. *)
Theorem C2_ensure_idempotent :
  forall (e : Lessons.env) (r1 r2 : Lessons.lesson_reply) (cl : Lessons.client)
         (d : Lessons.db) (lid : nat) (title : Lessons.jstr),
    LessonFacts.filled lid d ->
    snd (fst (Lessons.ensure_twice e r1 r2 cl d lid title)) = d /\
    (forall l, find (fun l => Nat.eqb (fst l) lid) (Lessons.mem_lessons cl) = Some l ->
       Lessons.has_text (snd l) = true ->
       Lessons.ensure_twice e r1 r2 cl d lid title = (cl, d, 0%nat)).
Proof.
  intros e r1 r2 cl d lid title Hf. split.
  - unfold Lessons.ensure_twice.
    pose proof (LessonLemmas.ensure_filled e r1 cl d lid title Hf) as H1.
    destruct (Lessons.ensureLessonContent e r1 cl d lid title) as [[cl1 d1] n1].
    simpl in H1; subst d1.
    pose proof (LessonLemmas.ensure_filled e r2 cl1 d lid title Hf) as H2.
    destruct (Lessons.ensureLessonContent e r2 cl1 d lid title) as [[cl2 d2] n2].
    simpl in H2; subst d2. reflexivity.
  - intros l Hfind Htext.
    assert (Hone : forall r, Lessons.ensureLessonContent e r cl d lid title = (cl, d, 0%nat)).
    { intro r. unfold Lessons.ensureLessonContent.
      destruct (Lessons.courseId cl); [|reflexivity].
      rewrite Hfind, Htext. reflexivity. }
    unfold Lessons.ensure_twice. rewrite (Hone r1), (Hone r2). reflexivity.
Qed.

Lemma C2_ensure_idempotent_witness :
  LessonFacts.filled 1 Lessons.sample_db /\
  Lessons.ensure_twice Lessons.sample_env (Lessons.Reply_ok (Some (Lessons.js "other")))
    Lessons.Reply_error Lessons.sample_client Lessons.sample_db 1 (Lessons.js "Budgeting 101")
  = (Lessons.sample_client, Lessons.sample_db, 0%nat).
Proof.
  assert (Hf : LessonFacts.filled 1 Lessons.sample_db).
  { split; [discriminate| vm_compute; reflexivity]. }
  split; [exact Hf|].
  apply (proj2 (C2_ensure_idempotent Lessons.sample_env
           (Lessons.Reply_ok (Some (Lessons.js "other")))
           Lessons.Reply_error Lessons.sample_client Lessons.sample_db 1
           (Lessons.js "Budgeting 101") Hf)
           (1%nat, Some (Lessons.js "# Budgeting 101"))); vm_compute; reflexivity.
Defined.

(** ** Whole-course generation *)

Module CourseFacts.
Import JsonNum Lessons CourseGen.

Lemma filter_all {A} (f : A -> bool) (l : list A) :
  (forall x, In x l -> f x = true) -> filter f l = l.
Proof.
  induction l as [|x l IH]; simpl; intro H; [reflexivity|].
  rewrite (H x (or_introl eq_refl)), IH; [reflexivity|].
  intros y Hy; apply H; right; exact Hy.
Qed.

Lemma filter_none {A} (f : A -> bool) (l : list A) :
  (forall x, In x l -> f x = false) -> filter f l = [].
Proof.
  induction l as [|x l IH]; simpl; intro H; [reflexivity|].
  rewrite (H x (or_introl eq_refl)), IH; [reflexivity|].
  intros y Hy; apply H; right; exact Hy.
Qed.

(** the rows the insert of [rs] stores, or none *)
Definition new_rows (cid next : nat) (rs : list row_obj) : list lesson_row :=
  match rows_of cid next rs with Some ls => ls | None => [] end.

Lemma rows_of_course (cid next : nat) (rs : list row_obj) (ls : list lesson_row) :
  rows_of cid next rs = Some ls -> forall r, In r ls -> l_course r = cid.
Proof.
  revert next ls; induction rs as [|o rs IH]; simpl; intros next ls H r Hr.
  - injection H as <-. destruct Hr.
  - destruct (text_cell (r_title o)); try discriminate.
    destruct (nullable (text_cell (r_content o))); try discriminate.
    destruct (nullable (int_cell (r_xp o))); try discriminate.
    destruct (nullable (int_cell (r_minutes o))); try discriminate.
    destruct (rows_of cid (S next) rs) as [ls'|] eqn:E; try discriminate.
    injection H as <-. destruct Hr as [<-|Hr]; [reflexivity|].
    exact (IH _ _ E r Hr).
Qed.

Lemma new_rows_course (cid next : nat) (rs : list row_obj) :
  forall r, In r (new_rows cid next rs) -> l_course r = cid.
Proof.
  unfold new_rows. destruct (rows_of cid next rs) eqn:E; [|intros r []].
  exact (rows_of_course _ _ _ _ E).
Qed.

Lemma rows_of_order (cid next : nat) (rs : list row_obj) (ls : list lesson_row) :
  rows_of cid next rs = Some ls -> map l_order ls = map r_order rs.
Proof.
  revert next ls; induction rs as [|o rs IH]; simpl; intros next ls H.
  - injection H as <-. reflexivity.
  - destruct (text_cell (r_title o)); try discriminate.
    destruct (nullable (text_cell (r_content o))); try discriminate.
    destruct (nullable (int_cell (r_xp o))); try discriminate.
    destruct (nullable (int_cell (r_minutes o))); try discriminate.
    destruct (rows_of cid (S next) rs) as [ls'|] eqn:E; try discriminate.
    injection H as <-. simpl. f_equal. exact (IH _ _ E).
Qed.

Lemma build_rows_order (idx : Z) (ls : list lesson_entry) (rs : list row_obj) :
  build_rows idx ls = Some rs ->
  map r_order rs = map (fun i => idx + Z.of_nat i) (seq 0 (List.length ls)).
Proof.
  revert idx rs; induction ls as [|l ls IH]; simpl; intros idx rs H.
  - injection H as <-. reflexivity.
  - destruct l as [|t c x m]; [discriminate|].
    destruct (build_rows (idx + 1) ls) as [rs'|] eqn:E; [|discriminate].
    injection H as <-. simpl. f_equal; [lia|].
    rewrite (IH _ _ E), <- seq_shift, map_map. apply map_ext. intro i. lia.
Qed.

Lemma delete_spec (e : env) (cid : nat) (d : db) :
  service_role e = true ->
  let d' := delete_course_lessons e cid d in
  course_lessons cid d' = [] /\ other_lessons cid d' = other_lessons cid d /\
  courses d' = courses d /\ db_next d' = db_next d.
Proof.
  intros Hs d'. subst d'. unfold delete_course_lessons, course_lessons, other_lessons.
  rewrite Hs. simpl. split; [|split; [|split]]; try reflexivity.
  - apply filter_none. intros r Hr. apply filter_In in Hr as [_ Hr].
    apply negb_true_iff in Hr. exact Hr.
  - apply filter_all. intros r Hr. apply filter_In in Hr as [_ Hr]. exact Hr.
Qed.

Lemma insert_rows_spec (e : env) (cid : nat) (rs : list row_obj) (d : db) :
  service_role e = true -> course_exists cid d = true ->
  let d' := insert_rows e cid rs d in
  course_lessons cid d' = course_lessons cid d ++ new_rows cid (db_next d) rs /\
  other_lessons cid d' = other_lessons cid d.
Proof.
  intros Hs Hc d'. subst d'.
  assert (Hnew : forall ls, rows_of cid (db_next d) rs = Some ls ->
            filter (fun r => Nat.eqb (l_course r) cid) ls = ls /\
            filter (fun r => negb (Nat.eqb (l_course r) cid)) ls = []).
  { intros ls E. split.
    - apply filter_all. intros r Hr. rewrite (rows_of_course _ _ _ _ E r Hr).
      apply Nat.eqb_refl.
    - apply filter_none. intros r Hr. rewrite (rows_of_course _ _ _ _ E r Hr), Nat.eqb_refl.
      reflexivity. }
  unfold insert_rows, new_rows, course_lessons, other_lessons.
  destruct rs as [|o rs'] eqn:Ers.
  - simpl. rewrite app_nil_r. split; reflexivity.
  - rewrite <- Ers. rewrite Hs, Hc. simpl.
    destruct (rows_of cid (db_next d) rs) as [ls|] eqn:E.
    + simpl. rewrite !filter_app. destruct (Hnew ls ltac:(rewrite <- Ers; exact E)) as [H1 H2].
      rewrite H1, H2, app_nil_r. split; reflexivity.
    + rewrite app_nil_r. split; reflexivity.
Qed.


Lemma course_row_of_id (id : nat) (co : course_obj) (n : nat) (row : course_row) :
  course_row_of id co n = Some row -> c_id row = id.
Proof.
  unfold course_row_of.
  destruct (text_cell (co_title co)); try discriminate.
  destruct (nullable (text_cell (co_description co))); try discriminate.
  destruct (nullable (text_cell (coalesce (co_difficulty co) (JStr (js "beginner")))));
    try discriminate.
  destruct (nullable (int_cell (coalesce (co_hours co) (JNum 3)))); try discriminate.
  destruct (nullable (text_cell (coalesce (co_icon co) (JStr book_icon)))); try discriminate.
  destruct (Z.of_nat n <=? 2147483647); try discriminate.
  intro H; injection H as <-. reflexivity.
Qed.

Lemma course_row_of_title (id : nat) (co : course_obj) (n : nat) (row : course_row) :
  course_row_of id co n = Some row -> text_cell (co_title co) = Val (c_title row).
Proof.
  unfold course_row_of.
  destruct (text_cell (co_title co)) as [| |t]; try discriminate.
  destruct (nullable (text_cell (co_description co))); try discriminate.
  destruct (nullable (text_cell (coalesce (co_difficulty co) (JStr (js "beginner")))));
    try discriminate.
  destruct (nullable (int_cell (coalesce (co_hours co) (JNum 3)))); try discriminate.
  destruct (nullable (text_cell (coalesce (co_icon co) (JStr book_icon)))); try discriminate.
  destruct (Z.of_nat n <=? 2147483647); try discriminate.
  intro H; injection H as <-. reflexivity.
Qed.

End CourseFacts.




(** ** Quiz *)

Module QuizLemmas.
Import Ledger Quiz QuizFacts.





End QuizLemmas.



(* ================================================================== *)
(** * Further properties of the pages and functions *)

(** ** Maps of per-key totals (Analytics.tsx, Budget.tsx) *)

Module MapLemmas.
Import Analytics.









Lemma keys_map_set (k : string) (v : Q) (m : list (string * Q)) :
  (forall x, In x (map fst (map_set k v m)) <-> x = k \/ In x (map fst m)) /\
  (NoDup (map fst m) -> NoDup (map fst (map_set k v m))).
Proof.
  induction m as [|[k' v'] r [IHin IHnd]]; simpl.
  - split; [intro x; split; intros [H|H]; subst; tauto|].
    intros _. constructor; [intros []|constructor].
  - destruct (String.eqb_spec k k') as [->|Hne]; simpl.
    + split; [intro x; split; [tauto|intros [->|H]; tauto]|exact (fun H => H)].
    + split.
      * intro x. rewrite IHin. tauto.
      * intro H. inversion H as [|? ? Hni Hnd]; subst. constructor.
        -- rewrite IHin. intros [->|Hx]; [congruence|contradiction].
        -- apply IHnd; exact Hnd.
Qed.

Lemma keys_group (key : expense -> string) (es : list expense) (m : list (string * Q)) :
  let g := fold_left (fun m e => accumulate (key e) (x_amount e) m) es m in
  (forall x, In x (map fst g) <-> In x (map fst m) \/ In x (map key es)) /\
  (NoDup (map fst m) -> NoDup (map fst g)).
Proof.
  revert m; induction es as [|e es IH]; intro m; simpl.
  - split; [tauto|exact (fun H => H)].
  - destruct (IH (accumulate (key e) (x_amount e) m)) as [Hin Hnd].
    destruct (keys_map_set (key e)
                (match map_get (key e) m with Some v => v | None => 0 end + x_amount e)%Q m)
      as [Hin1 Hnd1].
    split.
    + intro x. rewrite Hin. unfold accumulate. rewrite Hin1. intuition.
    + intro H. apply Hnd. unfold accumulate. apply Hnd1. exact H.
Qed.


Lemma group_nonempty (key : expense -> string) (es : list expense) :
  es <> [] -> group_by key es <> [].
Proof.
  intro Hne. unfold group_by. destruct (keys_group key es []) as [Hin _].
  destruct es as [|e es]; [congruence|].
  intro H. rewrite H in Hin. simpl in Hin. apply (proj2 (Hin (key e))). right; left; reflexivity.
Qed.

End MapLemmas.

Module SortLemmas.
Import JsNum Analytics.

Lemma Qlt_bool_false (x y : Q) : Qlt_bool x y = false -> (y <= x)%Q.
Proof.
  unfold Qlt_bool. rewrite negb_false_iff. apply Qle_bool_iff.
Qed.

Lemma insert_desc_perm (x : category_entry) (l : list category_entry) :
  Permutation (insert_desc x l) (x :: l).
Proof.
  induction l as [|y r IH]; simpl; [reflexivity|].
  destruct (Qlt_bool (c_value y) (c_value x)); [reflexivity|].
  rewrite IH. apply perm_swap.
Qed.

Lemma sort_desc_perm (l : list category_entry) : Permutation (sort_desc l) l.
Proof.
  unfold sort_desc.
  assert (H : forall acc, Permutation (fold_left (fun acc x => insert_desc x acc) l acc)
                                      (l ++ acc)).
  { induction l as [|x l IH]; intro acc; simpl; [reflexivity|].
    rewrite IH, insert_desc_perm. symmetry. apply Permutation_middle. }
  rewrite H, app_nil_r. reflexivity.
Qed.

(** the head of an insertion keeps the largest value *)
Lemma insert_desc_max (x : category_entry) (l : list category_entry) :
  (forall c, In c l -> (c_value c <= c_value (hd x l))%Q) ->
  forall c, In c (insert_desc x l) -> (c_value c <= c_value (hd x (insert_desc x l)))%Q.
Proof.
  destruct l as [|y r]; simpl; intros Hmax c Hc.
  - destruct Hc as [<-|[]]. apply Qle_refl.
  - destruct (Qlt_bool (c_value y) (c_value x)) eqn:E; simpl.
    + apply Qlt_bool_true in E. destruct Hc as [<-|Hc]; [apply Qle_refl|].
      apply Qle_trans with (c_value y); [apply Hmax; exact Hc|apply Qlt_le_weak; exact E].
    + apply Qlt_bool_false in E. destruct Hc as [<-|Hc]; [apply Qle_refl|].
      apply (Permutation_in _ (insert_desc_perm x r)) in Hc.
      destruct Hc as [<-|Hc]; [exact E|]. apply Hmax. right; exact Hc.
Qed.

Lemma sort_desc_max (l : list category_entry) (x : category_entry) :
  forall c, In c (sort_desc l) -> (c_value c <= c_value (hd x (sort_desc l)))%Q.
Proof.
  unfold sort_desc.
  assert (H : forall acc, (forall c, In c acc -> (c_value c <= c_value (hd x acc))%Q) ->
            forall c, In c (fold_left (fun acc y => insert_desc y acc) l acc) ->
            (c_value c <= c_value (hd x (fold_left (fun acc y => insert_desc y acc) l acc)))%Q).
  { induction l as [|y l IH]; intros acc Hacc; simpl; [exact Hacc|].
    apply IH. intros c Hc.
    destruct acc as [|z r].
    - simpl in Hc |- *. destruct Hc as [<-|[]]. apply Qle_refl.
    - assert (Hz : forall c, In c (z :: r) -> (c_value c <= c_value (hd y (z :: r)))%Q)
        by exact Hacc.
      pose proof (insert_desc_max y (z :: r) Hz c Hc) as Hm.
      destruct (insert_desc y (z :: r)) as [|w t] eqn:E; [destruct Hc|exact Hm]. }
  apply H. intros c [].
Qed.

End SortLemmas.

(** ** Analytics.tsx *)

Module AnalyticsFacts.
Import JsNum Aggregates Analytics MapLemmas SortLemmas.

Lemma loadAnalytics_some (month_label : Z -> string) (es : list expense) (a : analytics) :
  loadAnalytics month_label es = Some a ->
  es <> [] /\
  monthlyData a = monthlyChartData month_label es /\
  categoryData a = categoryChartData es /\
  totalSpent a = fold_left (fun s e => s + x_amount e)%Q es 0%Q /\
  insights a = firstn 5 (new_insights (trend_stat a) (categoryData a) (totalSpent a)
                                      (List.length es)).
Proof.
  unfold loadAnalytics. destruct es as [|e es]; [discriminate|].
  intro H. injection H as <-. simpl.
  split; [discriminate|]. repeat split; reflexivity.
Qed.

Lemma new_insights_length (t : number) (cats : list category_entry) (total : Q) (n : nat) :
  (List.length (new_insights t cats total n) <= 3)%nat.
Proof.
  unfold new_insights. rewrite !length_app.
  destruct (gt t 10); [|destruct (lt t (-10))];
  (destruct cats as [|top r]; [|destruct (gt _ 40)]);
  destruct (Nat.leb 30 n); simpl; lia.
Qed.

End AnalyticsFacts.





(** Analytics.tsx [loadAnalytics]: at most three insights are produced (a
    trend message, a top-category message, a transaction-count message),
    so [slice(0, 5)] never drops one. *)
Theorem analytics_insights_not_truncated :
  forall (month_label : Z -> string) (es : list Analytics.expense) (a : Analytics.analytics),
    Analytics.loadAnalytics month_label es = Some a ->
    (List.length (Analytics.insights a) <= 3)%nat /\
    Analytics.insights a =
      Analytics.new_insights (Analytics.trend_stat a) (Analytics.categoryData a)
                             (Analytics.totalSpent a) (List.length es).
Proof.
  intros month_label es a H.
  destruct (AnalyticsFacts.loadAnalytics_some month_label es a H)
    as [_ [_ [_ [_ Hi]]]].
  pose proof (AnalyticsFacts.new_insights_length (Analytics.trend_stat a)
                (Analytics.categoryData a) (Analytics.totalSpent a) (List.length es)) as Hl.
  rewrite Hi, firstn_all2 by lia. split; [exact Hl|reflexivity].
Qed.

Lemma analytics_insights_not_truncated_witness :
  Analytics.loadAnalytics (fun _ => "Nov 2025"%string)
    [ {| Analytics.x_date := 20400; Analytics.x_category := "food"; Analytics.x_amount := 12 |} ]
  <> None /\
  List.length
    (Analytics.new_insights (JsNum.Fin 0)
       [ {| Analytics.c_name := "Food"; Analytics.c_value := 12 |} ] 12 1) = 1%nat.
Proof.
  split; [discriminate|].
  destruct (analytics_insights_not_truncated (fun _ => "Nov 2025"%string)
    [ {| Analytics.x_date := 20400; Analytics.x_category := "food"; Analytics.x_amount := 12 |} ]
    _ eq_refl) as [_ H].
  vm_compute in H. vm_compute. reflexivity.
Defined.

(** Analytics.tsx [loadAnalytics]: the first entry of the sorted category
    chart has the largest total, and [highestCategory] is its name (unless
    that name is empty). *)
Theorem analytics_highest_category :
  forall (month_label : Z -> string) (es : list Analytics.expense) (a : Analytics.analytics),
    Analytics.loadAnalytics month_label es = Some a ->
    exists top rest,
      Analytics.categoryData a = top :: rest /\
      (forall c, In c (Analytics.categoryData a) ->
                 (Analytics.c_value c <= Analytics.c_value top)%Q) /\
      (Analytics.c_name top <> ""%string -> Analytics.highestCategory a = Analytics.c_name top).
Proof.
  intros month_label es a H. unfold Analytics.loadAnalytics in H.
  destruct es as [|e es]; [discriminate|].
  injection H as <-. simpl.
  assert (Hne : Analytics.categoryChartData (e :: es) <> []).
  { unfold Analytics.categoryChartData. intro E.
    pose proof (Permutation_length (SortLemmas.sort_desc_perm
      (map (fun kv => {| Analytics.c_name := Analytics.capitalize (fst kv);
                         Analytics.c_value := snd kv |})
           (Analytics.group_by Analytics.x_category (e :: es))))) as Hl.
    rewrite E, length_map in Hl.
    apply (MapLemmas.group_nonempty Analytics.x_category (e :: es)); [discriminate|].
    destruct (Analytics.group_by Analytics.x_category (e :: es)); [reflexivity|discriminate]. }
  pose proof (SortLemmas.sort_desc_max
    (map (fun kv => {| Analytics.c_name := Analytics.capitalize (fst kv);
                       Analytics.c_value := snd kv |})
         (Analytics.group_by Analytics.x_category (e :: es)))) as Hmax.
  fold (Analytics.categoryChartData (e :: es)) in Hmax.
  destruct (Analytics.categoryChartData (e :: es)) as [|top rest]; [congruence|].
  exists top, rest. split; [reflexivity|]. split.
  - intros c Hc. exact (Hmax top c Hc).
  - intro Hn. destruct (String.eqb_spec (Analytics.c_name top) ""); [contradiction|reflexivity].
Qed.

Lemma analytics_highest_category_witness :
  Analytics.loadAnalytics (fun _ => "Nov 2025"%string)
    [ {| Analytics.x_date := 20400; Analytics.x_category := "food"; Analytics.x_amount := 12 |};
      {| Analytics.x_date := 20399; Analytics.x_category := "bills"; Analytics.x_amount := 80 |} ]
  <> None /\
  option_map Analytics.highestCategory
    (Analytics.loadAnalytics (fun _ => "Nov 2025"%string)
      [ {| Analytics.x_date := 20400; Analytics.x_category := "food"; Analytics.x_amount := 12 |};
        {| Analytics.x_date := 20399; Analytics.x_category := "bills"; Analytics.x_amount := 80 |} ])
  = Some "Bills"%string.
Proof.
  split; [discriminate|].
  destruct (analytics_highest_category (fun _ => "Nov 2025"%string)
    [ {| Analytics.x_date := 20400; Analytics.x_category := "food"; Analytics.x_amount := 12 |};
      {| Analytics.x_date := 20399; Analytics.x_category := "bills"; Analytics.x_amount := 80 |} ]
    _ eq_refl) as [top [rest [Hc [_ Hn]]]].
  vm_compute in Hc. injection Hc as <- _.
  vm_compute. reflexivity.
Defined.

(** ** Budget.tsx *)

Module BudgetLemmas.
Import Analytics BudgetPage.

Lemma existsb_find_none {A} (f : A -> bool) (l : list A) :
  existsb f l = false <-> find f l = None.
Proof.
  induction l as [|x l IH]; simpl; [tauto|].
  destruct (f x); simpl; [split; discriminate|exact IH].
Qed.

Lemma find_snoc {A} (f : A -> bool) (l : list A) (x : A) :
  find f (l ++ [x]) = match find f l with Some y => Some y | None => if f x then Some x else None end.
Proof.
  induction l as [|y l IH]; simpl; [reflexivity|].
  destruct (f y); [reflexivity|exact IH].
Qed.

End BudgetLemmas.


(** Budget.tsx [saveBudget]: after any sequence of saves (category inputs
    or [applyRecommended]), a category's monthly row is the one it had
    before, or else the one of its first save whose amount the column
    accepts, holding that amount as the column stores it (rounded to 2
    places): a later save for the same category is refused by the unique
    constraint and never changes the stored amount, and a save refused for
    its amount (NaN, an infinity, an overflow) stores nothing. *)
Theorem budget_first_save_wins :
  forall (u : nat) (c : string) (saves : list (string * JsNum.number))
         (t : list BudgetPage.budget_row),
    find (BudgetPage.same_key u c "monthly") (BudgetPage.save_all u saves t) =
      match find (BudgetPage.same_key u c "monthly") t with
      | Some r => Some r
      | None =>
          match find (fun s => String.eqb (fst s) c &&
                               BudgetPage.accepted (snd s)) saves with
          | Some s =>
              option_map (fun v => {| BudgetPage.b_user := u; BudgetPage.b_category := c;
                                      BudgetPage.b_amount := v;
                                      BudgetPage.b_period := "monthly" |})
                         (BudgetPage.allocated_value (snd s))
          | None => None
          end
      end.
Proof.
  intros u c saves. unfold BudgetPage.save_all.
  induction saves as [|[c' a] saves IH]; intro t; cbn [find fold_left fst snd].
  - destruct (find (BudgetPage.same_key u c "monthly") t); reflexivity.
  - unfold BudgetPage.saveBudget at 2.
    destruct (BudgetPage.allocated_value a) as [v|] eqn:Ea.
    2:{ replace (BudgetPage.accepted a) with false
          by (unfold BudgetPage.accepted; rewrite Ea; reflexivity).
        rewrite andb_false_r. apply IH. }
    replace (BudgetPage.accepted a) with true
      by (unfold BudgetPage.accepted; rewrite Ea; reflexivity).
    rewrite andb_true_r.
    destruct (existsb (BudgetPage.same_key u c' "monthly") t) eqn:Ex; cbn [snd].
    + rewrite IH.
      destruct (String.eqb_spec c' c) as [<-|Hne]; [|reflexivity].
      destruct (find (BudgetPage.same_key u c' "monthly") t) eqn:F; [reflexivity|].
      apply BudgetLemmas.existsb_find_none in F. congruence.
    + rewrite IH, BudgetLemmas.find_snoc.
      pose proof Ex as F. apply BudgetLemmas.existsb_find_none in F.
      unfold BudgetPage.same_key at 2. cbn [BudgetPage.b_user BudgetPage.b_category
        BudgetPage.b_period]. rewrite Nat.eqb_refl. cbn [andb].
      destruct (String.eqb_spec c' c) as [<-|Hne].
      * rewrite F, String.eqb_refl. cbn. rewrite Ea. reflexivity.
      * destruct (find (BudgetPage.same_key u c "monthly") t); reflexivity.
Qed.

(** An example of [saveBudget]: the [recommended] double for "food" of a
    total of 1234.56 ([1234.56 * 15 / 100] is 185.18399999999997) is stored
    as 185.18. *)
Lemma budget_save_rounds_example :
  BudgetPage.saveBudget 7 "food"
    (Binary64.fl (Binary64.round (Binary64.round (123456 # 100) * 15) / 100)) []
  = (true, [{| BudgetPage.b_user := 7; BudgetPage.b_category := "food";
               BudgetPage.b_amount := 18518 # 100; BudgetPage.b_period := "monthly" |}]).
Proof. vm_compute. reflexivity. Qed.

(** ** Goals page *)

Module GoalsLemmas.
Import Ledger Goals GoalsPage.


End GoalsLemmas.



(** ** Daily login *)

Module LoginLemmas.
Import Ledger LedgerFacts.




End LoginLemmas.





(** ** Expenses.tsx [handleSubmit], profile side *)



(** ** Quiz.tsx *)

Module QuizInv.
Import Ledger Quiz QuizFacts.

Lemma quiz_inv_initial (questions : list question) (d : quiz_db) :
  questions <> [] -> quiz_inv questions (quiz_attempts d) (initial_state, d).
Proof.
  intro Hne. unfold quiz_inv, answered. simpl.
  destruct questions as [|q qs]; [congruence|]. simpl.
  split; [lia|]. split; [lia|]. split; [reflexivity|].
  split; [intro H; discriminate H|]. rewrite app_nil_r. reflexivity.
Qed.

Ltac qred := cbn beta iota zeta delta [currentQuestion selectedAnswer showExplanation score
  lives quizComplete quiz_attempts user_profile answered] in *.

Lemma quiz_inv_step (questions : list question) (a0 : list quiz_attempt) (ev : event)
    (sd : quiz_state * quiz_db) :
  quiz_inv questions a0 sd -> quiz_inv questions a0 (step questions ev sd).
Proof.
  destruct sd as [st d]. unfold step.
  destruct (quizComplete st) eqn:Ec; [exact (fun H => H)|].
  unfold quiz_inv.
  intros [Hcur [Hsc [Hlv [_ Hat]]]].
  unfold answered in *. rewrite Ec in Hat.
  destruct ev as [a|].
  - unfold handleAnswer. destruct (showExplanation st) eqn:Es; qred.
    + rewrite Es, Ec. split; [lia|split; [lia|split; [exact Hlv|split; [intro H; discriminate H|exact Hat]]]].
    + rewrite Ec.
      destruct (String.eqb a _); qred;
        (split; [lia|split; [lia|split; [lia|split; [intro H; discriminate H|exact Hat]]]]).
  - destruct (showExplanation st) eqn:Es.
    + unfold handleNext.
      destruct (Nat.ltb (currentQuestion st) (List.length questions - 1)) eqn:El.
      * apply Nat.ltb_lt in El. qred. rewrite Ec.
        split; [lia|split; [lia|split; [lia|split; [intro H; discriminate H|exact Hat]]]].
      * apply Nat.ltb_ge in El. qred. rewrite Es.
        split; [lia|split; [lia|split; [lia|split; [intros _; split; [lia|reflexivity]|]]]].
        unfold saveQuizAttempt. qred. rewrite Hat, app_nil_r. reflexivity.
    + qred. rewrite Es, Ec.
      split; [lia|split; [lia|split; [exact Hlv|split; [intro H; discriminate H|exact Hat]]]].
Qed.

Lemma quiz_inv_run (questions : list question) (d : quiz_db) (evs : list event) :
  questions <> [] ->
  quiz_inv questions (quiz_attempts d) (run questions evs (initial_state, d)).
Proof.
  intro Hne. unfold run.
  generalize (quiz_inv_initial questions d Hne).
  generalize (initial_state, d) as sd.
  induction evs as [|ev evs IH]; intros sd H; simpl; [exact H|].
  apply IH. apply quiz_inv_step. exact H.
Qed.

End QuizInv.

(** Quiz.tsx: whatever the clicks, the score never exceeds the number of
    questions (the results percentage is at most 100); the lives are 3
    minus the wrong answers so far, with no lower bound, since running out
    of lives does not end the quiz; the quiz completes only on the last
    question. *)
Theorem quiz_score_lives :
  forall (questions : list Quiz.question) (evs : list Quiz.event) (d : Quiz.quiz_db),
    questions <> [] ->
    let st := fst (Quiz.run questions evs (Quiz.initial_state, d)) in
    (Quiz.score st <= List.length questions)%nat /\
    Quiz.lives st = 3 - (Z.of_nat (QuizFacts.answered st) - Z.of_nat (Quiz.score st)) /\
    (Quiz.quizComplete st = true -> S (Quiz.currentQuestion st) = List.length questions).
Proof.
  intros questions evs d Hne.
  pose proof (QuizInv.quiz_inv_run questions d evs Hne) as H.
  destruct (Quiz.run questions evs (Quiz.initial_state, d)) as [st d'].
  unfold QuizFacts.quiz_inv in H. cbv beta iota zeta in H |- *. cbn [fst snd].
  destruct H as [Hcur [Hsc [Hlv [Hc _]]]].
  split; [|split; [lia|intro E; apply Hc; exact E]].
  unfold QuizFacts.answered in Hsc.
  destruct (Quiz.showExplanation st); lia.
Qed.

Lemma quiz_score_lives_witness :
  QuizFacts.two_questions <> [] /\
  Quiz.lives (fst (Quiz.run QuizFacts.two_questions
                     (Quiz.play ["Stocks"; "Bonds"; "Savings"; "Gold"]%string)
                     (Quiz.initial_state, QuizFacts.sample_quiz_db))) = 1.
Proof.
  assert (Hne : QuizFacts.two_questions <> []) by discriminate.
  split; [exact Hne|].
  destruct (quiz_score_lives QuizFacts.two_questions
              (Quiz.play ["Stocks"; "Bonds"; "Savings"; "Gold"]%string)
              QuizFacts.sample_quiz_db Hne) as [_ [H _]].
  cbv zeta in H. rewrite H. vm_compute. reflexivity.
Defined.

(** Quiz.tsx: a quiz session stores at most one attempt: the stored
    attempts are those from before, plus, once the quiz is complete, one row
    with the final score, the number of questions and score * 100 XP. *)
Theorem quiz_one_attempt :
  forall (questions : list Quiz.question) (evs : list Quiz.event) (d : Quiz.quiz_db),
    questions <> [] ->
    let sd := Quiz.run questions evs (Quiz.initial_state, d) in
    Quiz.quiz_attempts (snd sd) =
      Quiz.quiz_attempts d ++
        (if Quiz.quizComplete (fst sd)
         then [QuizFacts.attempt_row questions (Quiz.score (fst sd))] else []).
Proof.
  intros questions evs d Hne.
  pose proof (QuizInv.quiz_inv_run questions d evs Hne) as H.
  destruct (Quiz.run questions evs (Quiz.initial_state, d)) as [st d'].
  unfold QuizFacts.quiz_inv in H. cbv beta iota zeta in H |- *. cbn [fst snd].
  destruct H as [_ [_ [_ [_ Hat]]]]. exact Hat.
Qed.

Lemma quiz_one_attempt_witness :
  QuizFacts.two_questions <> [] /\
  List.length (Quiz.quiz_attempts
    (snd (Quiz.run QuizFacts.two_questions
            (Quiz.play ["50/30/20"; "Stocks"]%string ++ Quiz.play ["Bonds"]%string)
            (Quiz.initial_state, QuizFacts.sample_quiz_db)))) = 1%nat.
Proof.
  assert (Hne : QuizFacts.two_questions <> []) by discriminate.
  split; [exact Hne|].
  pose proof (quiz_one_attempt QuizFacts.two_questions
              (Quiz.play ["50/30/20"; "Stocks"]%string ++ Quiz.play ["Bonds"]%string)
              QuizFacts.sample_quiz_db Hne) as H.
  cbv zeta in H. rewrite H. vm_compute. reflexivity.
Defined.

(** ** generate-course and generate-lesson *)

Module EdgeLemmas.
Import Lessons CourseGen.

(** a rewrite of the matching rows that keeps their keys commutes with
    the key filter *)
Lemma filter_map_keys (lid cid : nat) (f : lesson_row -> lesson_row) (l : list lesson_row) :
  (forall r, l_id (f r) = l_id r /\ l_course (f r) = l_course r) ->
  filter (fun r => Nat.eqb (l_id r) lid && Nat.eqb (l_course r) cid) (map f l) =
  map f (filter (fun r => Nat.eqb (l_id r) lid && Nat.eqb (l_course r) cid) l).
Proof.
  intro Hf. induction l as [|r l IH]; simpl; [reflexivity|].
  destruct (Hf r) as [E1 E2]. rewrite E1, E2.
  destruct (Nat.eqb (l_id r) lid && Nat.eqb (l_course r) cid); simpl; rewrite IH; reflexivity.
Qed.

End EdgeLemmas.

(** generate-course called without a courseId (service-role key, Gemini
    key, a non-empty title, a successful reply whose parsed JSON is not
    [null]): when the courses table refuses the row built from [courseOut]
    nothing is written; otherwise a course row with a fresh id and
    [courseOut.title] as its title is appended, and the course's lessons are
    the generated rows, with order_index 1, 2, ..., n, when the lessons table
    accepts them all, and none otherwise; other lessons stay as they
    were. *)
Theorem course_created_with_lessons :
  forall (e : Lessons.env) (raw : Lessons.jstr) (parsed : option CourseGen.parsed_json)
         (titleHint : option Lessons.jstr) (d : Lessons.db)
         (c : CourseGen.course_field) (ls : option (list CourseGen.lesson_entry)),
    Lessons.api_key_set e = true ->
    Lessons.store_configured e = true ->
    Lessons.service_role e = true ->
    CourseGen.course_title titleHint <> [] ->
    match parsed with
    | Some p => p
    | None => CourseGen.fallback (CourseGen.course_title titleHint) raw
    end = CourseGen.PValue c ls ->
    (forall r, In r (Lessons.lessons d) -> Lessons.l_course r <> Lessons.db_next d) ->
    let title := CourseGen.course_title titleHint in
    let co := CourseGen.course_out title c in
    let lo := CourseGen.lessons_out title ls in
    let d' := snd (CourseGen.generate_course e (CourseGen.CReply_ok raw parsed)
                     None titleHint d) in
    match CourseGen.course_row_of (Lessons.db_next d) co (List.length lo) with
    | None => d' = d
    | Some row =>
        Lessons.text_cell (CourseGen.co_title co) = JsonNum.Val (Lessons.c_title row) /\
        Lessons.courses d' = Lessons.courses d ++ [row] /\
        CourseGen.other_lessons (Lessons.db_next d) d' = Lessons.lessons d /\
        CourseGen.course_lessons (Lessons.db_next d) d' =
          match CourseGen.build_rows 1 lo with
          | Some rs => CourseFacts.new_rows (Lessons.db_next d) (S (Lessons.db_next d)) rs
          | None => []
          end /\
        (CourseGen.course_lessons (Lessons.db_next d) d' = [] \/
         map Lessons.l_order (CourseGen.course_lessons (Lessons.db_next d) d') =
           map (fun i => 1 + Z.of_nat i) (seq 0 (List.length lo)))
    end.
Proof.
  intros e raw parsed titleHint d c ls Hk Hs Hr Ht Hp Hfresh title co lo d'.
  subst d' co lo.
  unfold CourseGen.generate_course. fold title.
  destruct title as [|t0 tr] eqn:Et; [exfalso; exact (Ht Et)|].
  rewrite <- Et. rewrite Hk. cbn [negb]. fold title in Hp. rewrite Hp, Hs.
  set (co := CourseGen.course_out title c). set (lo := CourseGen.lessons_out title ls). unfold CourseGen.insert_course. rewrite Hr.
  destruct (CourseGen.course_row_of (Lessons.db_next d) co (List.length lo)) as [row|] eqn:Er;
    [|reflexivity].
  cbv iota beta.
  set (d1 := {| Lessons.lessons := Lessons.lessons d;
                Lessons.courses := Lessons.courses d ++ [row];
                Lessons.db_next := S (Lessons.db_next d) |}).
  destruct (CourseFacts.delete_spec e (Lessons.db_next d) d1 Hr) as [Dc [Do [Dcs Dn]]].
  set (d2 := CourseGen.delete_course_lessons e (Lessons.db_next d) d1) in *.
  assert (He2 : Lessons.course_exists (Lessons.db_next d) d2 = true).
  { unfold Lessons.course_exists. rewrite Dcs. simpl. apply existsb_exists. exists row.
    split; [apply in_or_app; right; left; reflexivity|].
    rewrite (CourseFacts.course_row_of_id _ _ _ _ Er). apply Nat.eqb_refl. }
  assert (Ho1 : CourseGen.other_lessons (Lessons.db_next d) d1 = Lessons.lessons d).
  { apply CourseFacts.filter_all. intros r Hin. apply negb_true_iff, Nat.eqb_neq.
    exact (Hfresh r Hin). }
  assert (Hnew : forall rs, CourseGen.build_rows 1 lo = Some rs ->
                 CourseFacts.new_rows (Lessons.db_next d) (S (Lessons.db_next d)) rs = [] \/
                 map Lessons.l_order (CourseFacts.new_rows (Lessons.db_next d)
                   (S (Lessons.db_next d)) rs) =
                 map (fun i => 1 + Z.of_nat i) (seq 0 (List.length lo))).
  { intros rs H. unfold CourseFacts.new_rows.
    destruct (CourseGen.rows_of (Lessons.db_next d) (S (Lessons.db_next d)) rs) as [l|] eqn:E;
      [|left; reflexivity].
    right. rewrite (CourseFacts.rows_of_order _ _ _ _ E).
    exact (CourseFacts.build_rows_order _ _ _ H). }
  split; [exact (CourseFacts.course_row_of_title _ _ _ _ Er)|].
  destruct (CourseGen.build_rows 1 lo) as [rs|] eqn:Eb; simpl.
  - destruct (CourseFacts.insert_rows_spec e (Lessons.db_next d) rs d2 Hr He2) as [Ic Io].
    rewrite Ic, Io, Dc, Do, Ho1, Dn. simpl.
    split; [unfold CourseGen.insert_rows; destruct rs;
            [exact Dcs| rewrite Hr, He2;
             destruct (CourseGen.rows_of _ _ _); simpl; exact Dcs]|].
    split; [reflexivity|]. split; [reflexivity|].
    apply Hnew. reflexivity.
  - rewrite Dc, Do, Ho1. split; [exact Dcs|]. split; [reflexivity|].
    split; [reflexivity|left; reflexivity].
Qed.

Lemma course_created_with_lessons_witness :
  (forall r, In r (Lessons.lessons Lessons.sample_db) ->
             Lessons.l_course r <> Lessons.db_next Lessons.sample_db) /\
  Lessons.courses (snd (CourseGen.generate_course CourseGen.key_and_service_role
                          CourseGen.money_reply None None Lessons.sample_db)) =
    Lessons.courses Lessons.sample_db ++
      [ {| Lessons.c_id := 11; Lessons.c_title := Lessons.js "Money Basics";
           Lessons.c_description := None; Lessons.c_difficulty := Some (Lessons.js "beginner");
           Lessons.c_lessons_count := Some 2; Lessons.c_hours := Some 2;
           Lessons.c_icon := Some CourseGen.book_icon |} ] /\
  map Lessons.l_order
    (CourseGen.course_lessons 11
       (snd (CourseGen.generate_course CourseGen.key_and_service_role
               CourseGen.money_reply None None Lessons.sample_db))) = [1; 2].
Proof.
  assert (Hf : forall r, In r (Lessons.lessons Lessons.sample_db) ->
             Lessons.l_course r <> Lessons.db_next Lessons.sample_db).
  { intros r [<-|[]]. simpl. discriminate. }
  pose proof (course_created_with_lessons CourseGen.key_and_service_role (Lessons.js "{}")
    (Some (CourseGen.PValue (CourseGen.CObj CourseGen.money_course)
                            (Some CourseGen.money_lessons)))
    None Lessons.sample_db (CourseGen.CObj CourseGen.money_course)
    (Some CourseGen.money_lessons) eq_refl eq_refl eq_refl ltac:(discriminate) eq_refl Hf) as H.
  vm_compute in H. destruct H as [_ [H1 [_ [_ [H2|H2]]]]]; [discriminate|].
  split; [exact Hf|]. split; vm_compute; [exact H1|exact H2].
Defined.

(** generate-lesson on a stored lesson whose content is blank under the
    JavaScript trim (service-role key, Gemini key, non-empty title, a
    successful reply, a lesson text the text column takes): it answers with
    the lesson text, Gemini's text or, when that is missing or empty,
    ["⚠️ No lesson generated (empty response from Gemini)."], and writes
    that text into the row, which the same select then returns. *)
Theorem generate_lesson_fills_blank :
  forall (e : Lessons.env) (text : option Lessons.jstr) (lid cid : nat)
         (title : Lessons.jstr) (d : Lessons.db) (r : Lessons.lesson_row),
    Lessons.api_key_set e = true ->
    Lessons.store_configured e = true ->
    Lessons.service_role e = true ->
    title <> [] ->
    Lessons.select_single lid cid d = Some r ->
    Lessons.has_text (Lessons.l_content r) = false ->
    Lessons.pg_text_ok (Lessons.lesson_text text) = true ->
    let '(resp, d', calls) :=
      Lessons.generate_lesson e (Lessons.Reply_ok text) (Some lid) (Some cid) title d in
    resp = Lessons.Ok (Lessons.lesson_text text) /\ calls = 1%nat /\
    Lessons.select_single lid cid d' =
      Some {| Lessons.l_id := Lessons.l_id r; Lessons.l_course := Lessons.l_course r;
              Lessons.l_title := Lessons.l_title r;
              Lessons.l_content := Some (Lessons.lesson_text text);
              Lessons.l_order := Lessons.l_order r; Lessons.l_xp := Lessons.l_xp r;
              Lessons.l_minutes := Lessons.l_minutes r |}.
Proof.
  intros e text lid cid title d r Hk Hs Hr Ht Hsel Hblank Hok.
  unfold Lessons.generate_lesson.
  destruct title as [|t0 tr]; [exfalso; exact (Ht eq_refl)|].
  rewrite Hk, Hs. cbn [negb].
  unfold Lessons.persist. rewrite Hsel, Hblank.
  split; [reflexivity|]. split; [reflexivity|].
  unfold Lessons.update_content. rewrite Hr, Hok. cbn [andb].
  unfold Lessons.select_single in *. simpl.
  rewrite EdgeLemmas.filter_map_keys.
  - destruct (filter (fun r0 => Nat.eqb (Lessons.l_id r0) lid && Nat.eqb (Lessons.l_course r0) cid)
                (Lessons.lessons d)) as [|r' [|]] eqn:F; try discriminate.
    injection Hsel as <-.
    assert (Hin : In r' (filter (fun r0 => Nat.eqb (Lessons.l_id r0) lid &&
                                          Nat.eqb (Lessons.l_course r0) cid) (Lessons.lessons d)))
      by (rewrite F; left; reflexivity).
    apply filter_In in Hin as [_ Hk']. simpl. rewrite Hk'. reflexivity.
  - intro x. destruct (Nat.eqb (Lessons.l_id x) lid && Nat.eqb (Lessons.l_course x) cid);
      split; reflexivity.
Qed.

Lemma generate_lesson_fills_blank_witness :
  Lessons.select_single 1 10 Lessons.blank_db = Some Lessons.blank_row /\
  Lessons.select_single 1 10
    (snd (fst (Lessons.generate_lesson Lessons.sample_env (Lessons.Reply_ok None)
                 (Some 1%nat) (Some 10%nat) (Lessons.js "Budgeting 101") Lessons.blank_db)))
  = Some {| Lessons.l_id := 1; Lessons.l_course := 10;
            Lessons.l_title := Lessons.js "Budgeting 101";
            Lessons.l_content := Some Lessons.no_lesson_text; Lessons.l_order := 1;
            Lessons.l_xp := Some 100; Lessons.l_minutes := Some 10 |}.
Proof.
  assert (Hsel : Lessons.select_single 1 10 Lessons.blank_db = Some Lessons.blank_row)
    by reflexivity.
  split; [exact Hsel|].
  pose proof (generate_lesson_fills_blank Lessons.sample_env None 1 10
    (Lessons.js "Budgeting 101") Lessons.blank_db Lessons.blank_row
    eq_refl eq_refl eq_refl ltac:(discriminate) Hsel
    ltac:(vm_compute; reflexivity) ltac:(vm_compute; reflexivity)) as H.
  destruct (Lessons.generate_lesson Lessons.sample_env (Lessons.Reply_ok None)
              (Some 1%nat) (Some 10%nat) (Lessons.js "Budgeting 101") Lessons.blank_db)
    as [[resp d'] n].
  destruct H as [_ [_ H]]. exact H.
Defined.
